(** * Verification of the conversation / workflow engine of ai-bootstraper

    A shallow embedding of the Python backend:

    - [backend/models/schemas.py]          (module [Schemas])
    - [backend/core/state_machine.py]      (module [StateMachine])
    - [backend/core/session_manager.py]    (module [SessionManager])
    - [backend/execution/engine.py]        (module [Engine])
    - [backend/gemini/function_registry.py] (module [Registry])
    - [backend/core/agent.py]              (module [Agent])

    Python objects that are mutated in place are threaded explicitly.
    Code that can raise runs in a state-and-exception monad whose state
    survives an exception, as a mutated Python object does.  Everything
    the program obtains from outside (the clock, the websocket, the file
    system, child processes, the Gemini service) is reached through
    interfaces, declared as type classes over an abstract world. *)

From Stdlib Require Import ZArith String Ascii List Bool Lia.
From stdpp Require Import gmap strings list fin_maps pretty.
Import ListNotations.

Local Open Scope Z_scope.

(* ===================================================================== *)
(** ** Python strings *)
(* ===================================================================== *)

(** Strings are sequences of bytes.  [lower], [strip] and [split] act on
    the ASCII range, where they agree with Python's [str] methods; bytes
    above 127 are kept as they are. *)
Module PyStr.

Definition lower_ascii (c : ascii) : ascii :=
  let n := nat_of_ascii c in
  if ((65 <=? n)%nat && (n <=? 90)%nat)%bool then ascii_of_nat (n + 32) else c.

Fixpoint lower (s : string) : string :=
  match s with
  | EmptyString => EmptyString
  | String c r => String (lower_ascii c) (lower r)
  end.

Fixpoint upper_free (s : string) : bool :=
  match s with
  | EmptyString => true
  | String c r =>
      let n := nat_of_ascii c in
      negb ((65 <=? n)%nat && (n <=? 90)%nat) && upper_free r
  end.

(** [str.isspace] on one ASCII character: TAB, LF, VT, FF, CR, the
    separators 0x1c-0x1f and the blank. *)
Definition is_space (c : ascii) : bool :=
  let n := nat_of_ascii c in
  (((9 <=? n)%nat && (n <=? 13)%nat) || ((28 <=? n)%nat && (n <=? 32)%nat))%bool.

Fixpoint lstrip (s : string) : string :=
  match s with
  | EmptyString => EmptyString
  | String c r => if is_space c then lstrip r else s
  end.

Fixpoint all_space (s : string) : bool :=
  match s with
  | EmptyString => true
  | String c r => is_space c && all_space r
  end.

Fixpoint rstrip (s : string) : string :=
  match s with
  | EmptyString => EmptyString
  | String c r => if all_space s then EmptyString else String c (rstrip r)
  end.

Definition strip (s : string) : string := rstrip (lstrip s).

(** [needle in hay] *)
Fixpoint contains (needle hay : string) : bool :=
  String.prefix needle hay ||
  match hay with
  | EmptyString => false
  | String _ r => contains needle r
  end.

(** [s.split()]: the maximal runs of non-blank characters. *)
Fixpoint split_go (cur : string) (s : string) : list string :=
  match s with
  | EmptyString => if String.eqb cur "" then [] else [cur]
  | String c r =>
      if is_space c
      then (if String.eqb cur "" then split_go "" r else cur :: split_go "" r)
      else split_go (cur +:+ String c "") r
  end.

Definition split (s : string) : list string := split_go "" s.

(** [sep.join(parts)] *)
Fixpoint join (sep : string) (parts : list string) : string :=
  match parts with
  | [] => ""
  | [p] => p
  | p :: rest => p +:+ sep +:+ join sep rest
  end.

Definition truthy (s : string) : bool := negb (String.eqb s "").

Definition newline : string := String (ascii_of_nat 10) "".

Definition mem (s : string) (l : list string) : bool :=
  existsb (String.eqb s) l.

End PyStr.

(* ===================================================================== *)
(** ** Dynamic values, exceptions and the effect monad *)
(* ===================================================================== *)

(** The JSON values stored in the dictionaries the code passes around
    ([Dict[str, Any]]). *)
#[warnings="-register-all"]
Inductive Value : Type :=
| VNone
| VBool (b : bool)
| VInt (z : Z)
| VStr (s : string)
| VList (l : list Value)
| VDict (d : gmap string Value).

Definition value_truthy (v : Value) : bool :=
  match v with
  | VNone => false
  | VBool b => b
  | VInt z => negb (z =? 0)
  | VStr s => PyStr.truthy s
  | VList l => match l with [] => false | _ => true end
  | VDict d => match map_to_list d with [] => false | _ => true end
  end.

Definition value_is_none (v : Value) : bool :=
  match v with VNone => true | _ => false end.

(** [d.get(k)]: a missing key reads as [None]. *)
Definition dict_get (d : gmap string Value) (k : string) : Value :=
  match d !! k with Some v => v | None => VNone end.

(** [v == s] for a string literal [s]. *)
Definition is_str (v : Value) (s : string) : bool :=
  match v with VStr x => String.eqb x s | _ => false end.

(** [str(v)], as an f-string prints it (containers are abridged). *)
Definition value_str (v : Value) : string :=
  match v with
  | VNone => "None"
  | VBool true => "True"
  | VBool false => "False"
  | VInt z => pretty z
  | VStr s => s
  | VList _ => "[...]"
  | VDict _ => "{...}"
  end.

(** [bool(d)] for a dictionary. *)
Definition dict_truthy (d : gmap string Value) : bool :=
  match map_to_list d with [] => false | _ => true end.

(** Binding keyword arguments to a signature: every required name must
    be given and no unknown name may be; otherwise the call raises
    [TypeError]. *)
Definition kwargs_bind (args : gmap string Value) (required optional : list string)
  : bool :=
  forallb (fun k => bool_decide (is_Some (args !! k))) required &&
  forallb (fun kv => PyStr.mem (fst kv) (required ++ optional)) (map_to_list args).

(** A raised exception, identified by [str(e)]. *)
Definition Exn : Type := string.

Inductive Res (A : Type) : Type :=
| Ok (a : A)
| Raise (e : Exn).
Arguments Ok {A} a.
Arguments Raise {A} e.

(** Computations over a mutable state [St].  An exception leaves the
    state as it was when the exception was raised: nothing is rolled
    back. *)
Definition M (St A : Type) : Type := St -> Res A * St.

Definition ret {St A} (a : A) : M St A := fun st => (Ok a, st).

Definition bind {St A B} (m : M St A) (k : A -> M St B) : M St B :=
  fun st => match m st with
            | (Ok a, st') => k a st'
            | (Raise e, st') => (Raise e, st')
            end.

Definition raise {St A} (e : Exn) : M St A := fun st => (Raise e, st).

(** [try: m  except Exception as e: h e] *)
Definition try_except {St A} (m : M St A) (h : Exn -> M St A) : M St A :=
  fun st => match m st with
            | (Ok a, st') => (Ok a, st')
            | (Raise e, st') => h e st'
            end.

Definition get {St} : M St St := fun st => (Ok st, st).
Definition gets {St A} (f : St -> A) : M St A := fun st => (Ok (f st), st).
Definition modify {St} (f : St -> St) : M St unit := fun st => (Ok tt, f st).

Definition when {St} (b : bool) (m : M St unit) : M St unit :=
  if b then m else ret tt.

Declare Scope monad_scope.
Delimit Scope monad_scope with monad.
Notation "'let*' x ':=' m 'in' k" := (bind m (fun x => k))
  (at level 10, x binder, m at level 100, k at level 200) : monad_scope.
Notation "'do' m 'then' k" := (bind m (fun _ => k))
  (at level 10, m at level 100, k at level 200) : monad_scope.
Local Open Scope monad_scope.

(** Hoare triples with a normal and an exceptional postcondition. *)
Definition hoare {St A} (P : St -> Prop) (m : M St A)
    (Q : A -> St -> Prop) (E : St -> Prop) : Prop :=
  forall st, P st ->
    match m st with
    | (Ok a, st') => Q a st'
    | (Raise _, st') => E st'
    end.



Abbreviation Dict := (gmap string Value).

(* ===================================================================== *)
(** ** backend/models/schemas.py *)
(* ===================================================================== *)

Module Schemas.

Inductive ConversationState : Type :=
| INIT
| ASK_PROJECT_TYPE
| ASK_LANGUAGE_PREFERENCE
| ASK_PROJECT_NAME_FOLDER
| ASK_ADDITIONAL_DETAILS
| CHECK_SYSTEM_CAPABILITIES
| VALIDATE_INFO
| SUMMARY_CONFIRMATION
| PLANNING
| EXECUTING
| VERIFYING
| COMPLETED
| ERROR
| ABORTED.

#[global] Instance ConversationState_eq_dec : EqDecision ConversationState.
Proof. solve_decision. Defined.

Definition state_eqb (a b : ConversationState) : bool := bool_decide (a = b).

(** Iteration order of [for state in ConversationState]. *)
Definition all_states : list ConversationState :=
  [INIT; ASK_PROJECT_TYPE; ASK_LANGUAGE_PREFERENCE; ASK_PROJECT_NAME_FOLDER;
   ASK_ADDITIONAL_DETAILS; CHECK_SYSTEM_CAPABILITIES; VALIDATE_INFO;
   SUMMARY_CONFIRMATION; PLANNING; EXECUTING; VERIFYING; COMPLETED; ERROR; ABORTED].

Definition state_value (st : ConversationState) : string :=
  match st with
  | INIT => "INIT"
  | ASK_PROJECT_TYPE => "ASK_PROJECT_TYPE"
  | ASK_LANGUAGE_PREFERENCE => "ASK_LANGUAGE_PREFERENCE"
  | ASK_PROJECT_NAME_FOLDER => "ASK_PROJECT_NAME_FOLDER"
  | ASK_ADDITIONAL_DETAILS => "ASK_ADDITIONAL_DETAILS"
  | CHECK_SYSTEM_CAPABILITIES => "CHECK_SYSTEM_CAPABILITIES"
  | VALIDATE_INFO => "VALIDATE_INFO"
  | SUMMARY_CONFIRMATION => "SUMMARY_CONFIRMATION"
  | PLANNING => "PLANNING"
  | EXECUTING => "EXECUTING"
  | VERIFYING => "VERIFYING"
  | COMPLETED => "COMPLETED"
  | ERROR => "ERROR"
  | ABORTED => "ABORTED"
  end.

(** [ConversationState(value)]: [None] stands for the [ValueError]. *)
Definition state_of_value (v : string) : option ConversationState :=
  find (fun st => String.eqb (state_value st) v) all_states.

(** [ProjectType] is a [str] enumeration: a member is stored as the
    string of its value. *)
Inductive ProjectType : Type :=
| WEB_API | FRONTEND | CLI | MOBILE_APP | FULLSTACK | LIBRARY | MICROSERVICE.

Definition project_type_value (p : ProjectType) : string :=
  match p with
  | WEB_API => "web_api"
  | FRONTEND => "frontend"
  | CLI => "cli"
  | MOBILE_APP => "mobile_app"
  | FULLSTACK => "fullstack"
  | LIBRARY => "library"
  | MICROSERVICE => "microservice"
  end.

Definition all_project_types : list ProjectType :=
  [WEB_API; FRONTEND; CLI; MOBILE_APP; FULLSTACK; LIBRARY; MICROSERVICE].

Record Permission : Type := {
  perm_type : string;
  perm_scope : string;
  granted : bool;
  perm_timestamp : Z;
  revoked : option Z
}.

(** The requirement fields hold whatever [setattr] puts there (the
    model does not validate on assignment). *)
Record ProjectRequirements : Type := {
  project_type : Value;
  language : Value;
  framework : Value;
  project_name : Value;
  folder_path : Value;
  database : Value;
  authentication : Value;
  testing : Value;
  docker : Value;
  additional_features : Value
}.

Definition default_requirements : ProjectRequirements :=
  {| project_type := VNone; language := VNone; framework := VNone;
     project_name := VNone; folder_path := VNone; database := VNone;
     authentication := VBool false; testing := VBool false;
     docker := VBool false; additional_features := VList [] |}.

Definition requirement_fields : list string :=
  ["project_type"; "language"; "framework"; "project_name"; "folder_path";
   "database"; "authentication"; "testing"; "docker"; "additional_features"].

(** [setattr(requirements, field, value)] for a declared field. *)
Definition set_requirement (field : string) (v : Value) (r : ProjectRequirements)
  : ProjectRequirements :=
  if String.eqb field "project_type" then
    {| project_type := v; language := language r; framework := framework r;
       project_name := project_name r; folder_path := folder_path r;
       database := database r; authentication := authentication r;
       testing := testing r; docker := docker r;
       additional_features := additional_features r |}
  else if String.eqb field "language" then
    {| project_type := project_type r; language := v; framework := framework r;
       project_name := project_name r; folder_path := folder_path r;
       database := database r; authentication := authentication r;
       testing := testing r; docker := docker r;
       additional_features := additional_features r |}
  else if String.eqb field "framework" then
    {| project_type := project_type r; language := language r; framework := v;
       project_name := project_name r; folder_path := folder_path r;
       database := database r; authentication := authentication r;
       testing := testing r; docker := docker r;
       additional_features := additional_features r |}
  else if String.eqb field "project_name" then
    {| project_type := project_type r; language := language r;
       framework := framework r; project_name := v; folder_path := folder_path r;
       database := database r; authentication := authentication r;
       testing := testing r; docker := docker r;
       additional_features := additional_features r |}
  else if String.eqb field "folder_path" then
    {| project_type := project_type r; language := language r;
       framework := framework r; project_name := project_name r; folder_path := v;
       database := database r; authentication := authentication r;
       testing := testing r; docker := docker r;
       additional_features := additional_features r |}
  else if String.eqb field "database" then
    {| project_type := project_type r; language := language r;
       framework := framework r; project_name := project_name r;
       folder_path := folder_path r; database := v;
       authentication := authentication r; testing := testing r;
       docker := docker r; additional_features := additional_features r |}
  else if String.eqb field "authentication" then
    {| project_type := project_type r; language := language r;
       framework := framework r; project_name := project_name r;
       folder_path := folder_path r; database := database r;
       authentication := v; testing := testing r; docker := docker r;
       additional_features := additional_features r |}
  else if String.eqb field "testing" then
    {| project_type := project_type r; language := language r;
       framework := framework r; project_name := project_name r;
       folder_path := folder_path r; database := database r;
       authentication := authentication r; testing := v; docker := docker r;
       additional_features := additional_features r |}
  else if String.eqb field "docker" then
    {| project_type := project_type r; language := language r;
       framework := framework r; project_name := project_name r;
       folder_path := folder_path r; database := database r;
       authentication := authentication r; testing := testing r; docker := v;
       additional_features := additional_features r |}
  else if String.eqb field "additional_features" then
    {| project_type := project_type r; language := language r;
       framework := framework r; project_name := project_name r;
       folder_path := folder_path r; database := database r;
       authentication := authentication r; testing := testing r;
       docker := docker r; additional_features := v |}
  else r.

Definition get_requirement (field : string) (r : ProjectRequirements) : Value :=
  if String.eqb field "project_type" then project_type r
  else if String.eqb field "language" then language r
  else if String.eqb field "framework" then framework r
  else if String.eqb field "project_name" then project_name r
  else if String.eqb field "folder_path" then folder_path r
  else if String.eqb field "database" then database r
  else if String.eqb field "authentication" then authentication r
  else if String.eqb field "testing" then testing r
  else if String.eqb field "docker" then docker r
  else if String.eqb field "additional_features" then additional_features r
  else VNone.

Record SystemCapability : Type := {
  os : string;
  shell : string;
  python_version : option string;
  node_version : option string;
  npm_version : option string;
  docker_installed : bool;
  git_installed : bool;
  available_package_managers : list string;
  available_runtimes : gmap string string;
  environment_variables : gmap string string;
  detection_completed : bool
}.

Record ExecutionStep : Type := {
  command : string;
  description : string;
  working_directory : option string;
  fallback_command : option string;
  expected_output_pattern : option string;
  timeout : Z;
  retry_count : Z;
  requires_permission : bool
}.

(** [ExecutionStep(command=..., description=..., working_directory=...,
    timeout=...)] with the defaults of the other fields. *)
Definition make_step (cmd descr : string) (wd : option string) (tmo : Z)
  : ExecutionStep :=
  {| command := cmd; description := descr; working_directory := wd;
     fallback_command := None; expected_output_pattern := None;
     timeout := tmo; retry_count := 0; requires_permission := false |}.

Record ExecutionPlan : Type := {
  steps : list ExecutionStep;
  total_steps : Z;
  estimated_duration : Z;
  requires_permissions : list string;
  plan_created_at : Z
}.

Record ExecutionResult : Type := {
  step_index : Z;
  res_command : string;
  success : bool;
  stdout : string;
  stderr : string;
  exit_code : Z;
  duration : Z;
  res_timestamp : Z;
  fallback_used : bool;
  res_retry_count : Z
}.

Definition set_fallback_used (b : bool) (r : ExecutionResult) : ExecutionResult :=
  {| step_index := step_index r; res_command := res_command r;
     success := success r; stdout := stdout r; stderr := stderr r;
     exit_code := exit_code r; duration := duration r;
     res_timestamp := res_timestamp r; fallback_used := b;
     res_retry_count := res_retry_count r |}.

Record Message : Type := {
  role : string;
  content : string;
  msg_timestamp : Z
}.

(** An entry of [function_results].  The registry stores
    [{name, args, result, timestamp}] and the agent
    [{name, status, timestamp, result}]: [fr_status] and [fr_args] are
    [None] when the key is absent. *)
Record FunctionResultEntry : Type := {
  fr_name : string;
  fr_status : option Value;
  fr_args : option Dict;
  fr_result : Dict;
  fr_timestamp : Z
}.

Record StateChange : Type := {
  sc_from : string;
  sc_to : string;
  sc_reason : option string;
  sc_timestamp : Z
}.

Record SessionState : Type := {
  session_id : string;
  current_state : ConversationState;
  requirements : ProjectRequirements;
  capabilities : option SystemCapability;
  permissions : gmap string Permission;
  execution_plan : option ExecutionPlan;
  execution_results : list ExecutionResult;
  conversation_history : list Message;
  pending_question : option (gmap string Value);
  waiting_for_user : bool;
  completion_percentage : Z;
  error_message : option string;
  function_results : list FunctionResultEntry;
  capabilities_detected : bool;
  validation_completed : bool;
  should_regenerate_steps : bool;
  state_history : list StateChange;
  created_at : Z;
  updated_at : Z;
  iteration_count : Z;
  state_version : Z
}.

Definition set_current_state (v : ConversationState) (s : SessionState) : SessionState :=
  {| session_id := session_id s; current_state := v; requirements := requirements s;
     capabilities := capabilities s; permissions := permissions s; execution_plan :=
     execution_plan s; execution_results := execution_results s; conversation_history :=
     conversation_history s; pending_question := pending_question s; waiting_for_user :=
     waiting_for_user s; completion_percentage := completion_percentage s; error_message :=
     error_message s; function_results := function_results s; capabilities_detected :=
     capabilities_detected s; validation_completed := validation_completed s;
     should_regenerate_steps := should_regenerate_steps s; state_history := state_history s;
     created_at := created_at s; updated_at := updated_at s; iteration_count :=
     iteration_count s; state_version := state_version s |}.

Definition set_requirements (v : ProjectRequirements) (s : SessionState) : SessionState :=
  {| session_id := session_id s; current_state := current_state s; requirements := v;
     capabilities := capabilities s; permissions := permissions s; execution_plan :=
     execution_plan s; execution_results := execution_results s; conversation_history :=
     conversation_history s; pending_question := pending_question s; waiting_for_user :=
     waiting_for_user s; completion_percentage := completion_percentage s; error_message :=
     error_message s; function_results := function_results s; capabilities_detected :=
     capabilities_detected s; validation_completed := validation_completed s;
     should_regenerate_steps := should_regenerate_steps s; state_history := state_history s;
     created_at := created_at s; updated_at := updated_at s; iteration_count :=
     iteration_count s; state_version := state_version s |}.

Definition set_capabilities (v : option SystemCapability) (s : SessionState) : SessionState :=
  {| session_id := session_id s; current_state := current_state s; requirements :=
     requirements s; capabilities := v; permissions := permissions s; execution_plan :=
     execution_plan s; execution_results := execution_results s; conversation_history :=
     conversation_history s; pending_question := pending_question s; waiting_for_user :=
     waiting_for_user s; completion_percentage := completion_percentage s; error_message :=
     error_message s; function_results := function_results s; capabilities_detected :=
     capabilities_detected s; validation_completed := validation_completed s;
     should_regenerate_steps := should_regenerate_steps s; state_history := state_history s;
     created_at := created_at s; updated_at := updated_at s; iteration_count :=
     iteration_count s; state_version := state_version s |}.

Definition set_permissions (v : gmap string Permission) (s : SessionState) : SessionState :=
  {| session_id := session_id s; current_state := current_state s; requirements :=
     requirements s; capabilities := capabilities s; permissions := v; execution_plan :=
     execution_plan s; execution_results := execution_results s; conversation_history :=
     conversation_history s; pending_question := pending_question s; waiting_for_user :=
     waiting_for_user s; completion_percentage := completion_percentage s; error_message :=
     error_message s; function_results := function_results s; capabilities_detected :=
     capabilities_detected s; validation_completed := validation_completed s;
     should_regenerate_steps := should_regenerate_steps s; state_history := state_history s;
     created_at := created_at s; updated_at := updated_at s; iteration_count :=
     iteration_count s; state_version := state_version s |}.

Definition set_execution_plan (v : option ExecutionPlan) (s : SessionState) : SessionState :=
  {| session_id := session_id s; current_state := current_state s; requirements :=
     requirements s; capabilities := capabilities s; permissions := permissions s;
     execution_plan := v; execution_results := execution_results s; conversation_history :=
     conversation_history s; pending_question := pending_question s; waiting_for_user :=
     waiting_for_user s; completion_percentage := completion_percentage s; error_message :=
     error_message s; function_results := function_results s; capabilities_detected :=
     capabilities_detected s; validation_completed := validation_completed s;
     should_regenerate_steps := should_regenerate_steps s; state_history := state_history s;
     created_at := created_at s; updated_at := updated_at s; iteration_count :=
     iteration_count s; state_version := state_version s |}.

Definition set_execution_results (v : list ExecutionResult) (s : SessionState) : SessionState :=
  {| session_id := session_id s; current_state := current_state s; requirements :=
     requirements s; capabilities := capabilities s; permissions := permissions s;
     execution_plan := execution_plan s; execution_results := v; conversation_history :=
     conversation_history s; pending_question := pending_question s; waiting_for_user :=
     waiting_for_user s; completion_percentage := completion_percentage s; error_message :=
     error_message s; function_results := function_results s; capabilities_detected :=
     capabilities_detected s; validation_completed := validation_completed s;
     should_regenerate_steps := should_regenerate_steps s; state_history := state_history s;
     created_at := created_at s; updated_at := updated_at s; iteration_count :=
     iteration_count s; state_version := state_version s |}.

Definition set_conversation_history (v : list Message) (s : SessionState) : SessionState :=
  {| session_id := session_id s; current_state := current_state s; requirements :=
     requirements s; capabilities := capabilities s; permissions := permissions s;
     execution_plan := execution_plan s; execution_results := execution_results s;
     conversation_history := v; pending_question := pending_question s; waiting_for_user :=
     waiting_for_user s; completion_percentage := completion_percentage s; error_message :=
     error_message s; function_results := function_results s; capabilities_detected :=
     capabilities_detected s; validation_completed := validation_completed s;
     should_regenerate_steps := should_regenerate_steps s; state_history := state_history s;
     created_at := created_at s; updated_at := updated_at s; iteration_count :=
     iteration_count s; state_version := state_version s |}.

Definition set_pending_question (v : option (gmap string Value)) (s : SessionState) : SessionState :=
  {| session_id := session_id s; current_state := current_state s; requirements :=
     requirements s; capabilities := capabilities s; permissions := permissions s;
     execution_plan := execution_plan s; execution_results := execution_results s;
     conversation_history := conversation_history s; pending_question := v; waiting_for_user
     := waiting_for_user s; completion_percentage := completion_percentage s; error_message
     := error_message s; function_results := function_results s; capabilities_detected :=
     capabilities_detected s; validation_completed := validation_completed s;
     should_regenerate_steps := should_regenerate_steps s; state_history := state_history s;
     created_at := created_at s; updated_at := updated_at s; iteration_count :=
     iteration_count s; state_version := state_version s |}.

Definition set_waiting_for_user (v : bool) (s : SessionState) : SessionState :=
  {| session_id := session_id s; current_state := current_state s; requirements :=
     requirements s; capabilities := capabilities s; permissions := permissions s;
     execution_plan := execution_plan s; execution_results := execution_results s;
     conversation_history := conversation_history s; pending_question := pending_question s;
     waiting_for_user := v; completion_percentage := completion_percentage s; error_message
     := error_message s; function_results := function_results s; capabilities_detected :=
     capabilities_detected s; validation_completed := validation_completed s;
     should_regenerate_steps := should_regenerate_steps s; state_history := state_history s;
     created_at := created_at s; updated_at := updated_at s; iteration_count :=
     iteration_count s; state_version := state_version s |}.

Definition set_completion_percentage (v : Z) (s : SessionState) : SessionState :=
  {| session_id := session_id s; current_state := current_state s; requirements :=
     requirements s; capabilities := capabilities s; permissions := permissions s;
     execution_plan := execution_plan s; execution_results := execution_results s;
     conversation_history := conversation_history s; pending_question := pending_question s;
     waiting_for_user := waiting_for_user s; completion_percentage := v; error_message :=
     error_message s; function_results := function_results s; capabilities_detected :=
     capabilities_detected s; validation_completed := validation_completed s;
     should_regenerate_steps := should_regenerate_steps s; state_history := state_history s;
     created_at := created_at s; updated_at := updated_at s; iteration_count :=
     iteration_count s; state_version := state_version s |}.

Definition set_error_message (v : option string) (s : SessionState) : SessionState :=
  {| session_id := session_id s; current_state := current_state s; requirements :=
     requirements s; capabilities := capabilities s; permissions := permissions s;
     execution_plan := execution_plan s; execution_results := execution_results s;
     conversation_history := conversation_history s; pending_question := pending_question s;
     waiting_for_user := waiting_for_user s; completion_percentage := completion_percentage
     s; error_message := v; function_results := function_results s; capabilities_detected :=
     capabilities_detected s; validation_completed := validation_completed s;
     should_regenerate_steps := should_regenerate_steps s; state_history := state_history s;
     created_at := created_at s; updated_at := updated_at s; iteration_count :=
     iteration_count s; state_version := state_version s |}.

Definition set_function_results (v : list FunctionResultEntry) (s : SessionState) : SessionState :=
  {| session_id := session_id s; current_state := current_state s; requirements :=
     requirements s; capabilities := capabilities s; permissions := permissions s;
     execution_plan := execution_plan s; execution_results := execution_results s;
     conversation_history := conversation_history s; pending_question := pending_question s;
     waiting_for_user := waiting_for_user s; completion_percentage := completion_percentage
     s; error_message := error_message s; function_results := v; capabilities_detected :=
     capabilities_detected s; validation_completed := validation_completed s;
     should_regenerate_steps := should_regenerate_steps s; state_history := state_history s;
     created_at := created_at s; updated_at := updated_at s; iteration_count :=
     iteration_count s; state_version := state_version s |}.

Definition set_capabilities_detected (v : bool) (s : SessionState) : SessionState :=
  {| session_id := session_id s; current_state := current_state s; requirements :=
     requirements s; capabilities := capabilities s; permissions := permissions s;
     execution_plan := execution_plan s; execution_results := execution_results s;
     conversation_history := conversation_history s; pending_question := pending_question s;
     waiting_for_user := waiting_for_user s; completion_percentage := completion_percentage
     s; error_message := error_message s; function_results := function_results s;
     capabilities_detected := v; validation_completed := validation_completed s;
     should_regenerate_steps := should_regenerate_steps s; state_history := state_history s;
     created_at := created_at s; updated_at := updated_at s; iteration_count :=
     iteration_count s; state_version := state_version s |}.

Definition set_validation_completed (v : bool) (s : SessionState) : SessionState :=
  {| session_id := session_id s; current_state := current_state s; requirements :=
     requirements s; capabilities := capabilities s; permissions := permissions s;
     execution_plan := execution_plan s; execution_results := execution_results s;
     conversation_history := conversation_history s; pending_question := pending_question s;
     waiting_for_user := waiting_for_user s; completion_percentage := completion_percentage
     s; error_message := error_message s; function_results := function_results s;
     capabilities_detected := capabilities_detected s; validation_completed := v;
     should_regenerate_steps := should_regenerate_steps s; state_history := state_history s;
     created_at := created_at s; updated_at := updated_at s; iteration_count :=
     iteration_count s; state_version := state_version s |}.

Definition set_should_regenerate_steps (v : bool) (s : SessionState) : SessionState :=
  {| session_id := session_id s; current_state := current_state s; requirements :=
     requirements s; capabilities := capabilities s; permissions := permissions s;
     execution_plan := execution_plan s; execution_results := execution_results s;
     conversation_history := conversation_history s; pending_question := pending_question s;
     waiting_for_user := waiting_for_user s; completion_percentage := completion_percentage
     s; error_message := error_message s; function_results := function_results s;
     capabilities_detected := capabilities_detected s; validation_completed :=
     validation_completed s; should_regenerate_steps := v; state_history := state_history s;
     created_at := created_at s; updated_at := updated_at s; iteration_count :=
     iteration_count s; state_version := state_version s |}.

Definition set_state_history (v : list StateChange) (s : SessionState) : SessionState :=
  {| session_id := session_id s; current_state := current_state s; requirements :=
     requirements s; capabilities := capabilities s; permissions := permissions s;
     execution_plan := execution_plan s; execution_results := execution_results s;
     conversation_history := conversation_history s; pending_question := pending_question s;
     waiting_for_user := waiting_for_user s; completion_percentage := completion_percentage
     s; error_message := error_message s; function_results := function_results s;
     capabilities_detected := capabilities_detected s; validation_completed :=
     validation_completed s; should_regenerate_steps := should_regenerate_steps s;
     state_history := v; created_at := created_at s; updated_at := updated_at s;
     iteration_count := iteration_count s; state_version := state_version s |}.

Definition set_updated_at (v : Z) (s : SessionState) : SessionState :=
  {| session_id := session_id s; current_state := current_state s; requirements :=
     requirements s; capabilities := capabilities s; permissions := permissions s;
     execution_plan := execution_plan s; execution_results := execution_results s;
     conversation_history := conversation_history s; pending_question := pending_question s;
     waiting_for_user := waiting_for_user s; completion_percentage := completion_percentage
     s; error_message := error_message s; function_results := function_results s;
     capabilities_detected := capabilities_detected s; validation_completed :=
     validation_completed s; should_regenerate_steps := should_regenerate_steps s;
     state_history := state_history s; created_at := created_at s; updated_at := v;
     iteration_count := iteration_count s; state_version := state_version s |}.

Definition set_iteration_count (v : Z) (s : SessionState) : SessionState :=
  {| session_id := session_id s; current_state := current_state s; requirements :=
     requirements s; capabilities := capabilities s; permissions := permissions s;
     execution_plan := execution_plan s; execution_results := execution_results s;
     conversation_history := conversation_history s; pending_question := pending_question s;
     waiting_for_user := waiting_for_user s; completion_percentage := completion_percentage
     s; error_message := error_message s; function_results := function_results s;
     capabilities_detected := capabilities_detected s; validation_completed :=
     validation_completed s; should_regenerate_steps := should_regenerate_steps s;
     state_history := state_history s; created_at := created_at s; updated_at := updated_at
     s; iteration_count := v; state_version := state_version s |}.

Definition set_state_version (v : Z) (s : SessionState) : SessionState :=
  {| session_id := session_id s; current_state := current_state s; requirements :=
     requirements s; capabilities := capabilities s; permissions := permissions s;
     execution_plan := execution_plan s; execution_results := execution_results s;
     conversation_history := conversation_history s; pending_question := pending_question s;
     waiting_for_user := waiting_for_user s; completion_percentage := completion_percentage
     s; error_message := error_message s; function_results := function_results s;
     capabilities_detected := capabilities_detected s; validation_completed :=
     validation_completed s; should_regenerate_steps := should_regenerate_steps s;
     state_history := state_history s; created_at := created_at s; updated_at := updated_at
     s; iteration_count := iteration_count s; state_version := v |}.


(** [SessionState(session_id=..., current_state=INIT, created_at=now,
    updated_at=now)] *)
Definition new_session (sid : string) (now : Z) : SessionState :=
  {| session_id := sid; current_state := INIT; requirements := default_requirements;
     capabilities := None; permissions := ∅; execution_plan := None;
     execution_results := []; conversation_history := []; pending_question := None;
     waiting_for_user := false; completion_percentage := 0; error_message := None;
     function_results := []; capabilities_detected := false;
     validation_completed := false; should_regenerate_steps := false;
     state_history := []; created_at := now; updated_at := now;
     iteration_count := 0; state_version := 1 |}.

(** [SessionState.add_message] *)
Definition add_message (now : Z) (r c : string) (s : SessionState) : SessionState :=
  set_updated_at now
    (set_conversation_history
       (conversation_history s ++ [{| role := r; content := c; msg_timestamp := now |}]) s).

(** [SessionState.update_state] *)
Definition update_state (now : Z) (new_state : ConversationState) (s : SessionState)
  : SessionState :=
  set_iteration_count (iteration_count s + 1)
    (set_updated_at now (set_current_state new_state s)).

(** The data-model invariant of the session: the waiting flag is set
    exactly when a question is pending. *)
Definition prompt_invariant (s : SessionState) : Prop :=
  waiting_for_user s = true <-> pending_question s <> None.

End Schemas.
Import Schemas.

(* ===================================================================== *)
(** ** backend/core/state_machine.py *)
(* ===================================================================== *)

Module StateMachine.

Record StateTransition : Type := {
  from_state : ConversationState;
  to_state : ConversationState;
  condition : option (SessionState -> bool);
  action : option (SessionState -> SessionState);
  tr_description : string
}.

(** [StateTransition.can_transition] *)
Definition can_transition (t : StateTransition) (s : SessionState) : bool :=
  if negb (state_eqb (current_state s) (from_state t)) then false
  else match condition t with
       | Some c => c s
       | None => true
       end.

(** [StateTransition.execute] *)
Definition execute (now : Z) (t : StateTransition) (s : SessionState) : SessionState :=
  let s1 := match action t with Some a => a s | None => s end in
  update_state now (to_state t) s1.

Definition is_not_none (v : Value) : bool := negb (value_is_none v).

Definition transition (a b : ConversationState)
    (c : option (SessionState -> bool)) (d : string) : StateTransition :=
  {| from_state := a; to_state := b; condition := c; action := None;
     tr_description := d |}.

Definition capabilities_present (s : SessionState) : bool :=
  match capabilities s with Some _ => true | None => false end.

(** The transitions registered before the loop of [_setup_transitions],
    in registration order. *)
Definition flow_transitions : list StateTransition :=
  [ transition INIT ASK_PROJECT_TYPE None "Start project type interview";
    transition ASK_PROJECT_TYPE ASK_PROJECT_NAME_FOLDER
      (Some (fun s => is_not_none (project_type (requirements s))))
      "AI has set project type and should have also set language - proceed immediately";
    transition ASK_LANGUAGE_PREFERENCE ASK_PROJECT_NAME_FOLDER
      (Some (fun s => is_not_none (language (requirements s))))
      "Language collected, ask for project details";
    transition ASK_PROJECT_NAME_FOLDER CHECK_SYSTEM_CAPABILITIES
      (Some (fun s => is_not_none (project_name (requirements s)) &&
                      is_not_none (folder_path (requirements s)) &&
                      (is_not_none (database (requirements s)) || negb false || true)))
      "Skip additional details - AI decides everything";
    transition ASK_PROJECT_NAME_FOLDER ASK_ADDITIONAL_DETAILS
      (Some (fun s => is_not_none (project_name (requirements s)) &&
                      is_not_none (folder_path (requirements s)) && false))
      "Basic info collected, ask for additional details (DEPRECATED)";
    transition ASK_ADDITIONAL_DETAILS CHECK_SYSTEM_CAPABILITIES None
      "Additional details collected, check system";
    transition CHECK_SYSTEM_CAPABILITIES VALIDATE_INFO
      (Some (fun s => match capabilities s with
                      | Some c => detection_completed c
                      | None => false
                      end))
      "System capabilities MUST be detected before validation";
    transition VALIDATE_INFO PLANNING
      (Some (fun s => capabilities_present s && validation_completed s &&
                      (80 <=? completion_percentage s)))
      "Requirements validated and user has confirmed - proceed to planning";
    transition VALIDATE_INFO SUMMARY_CONFIRMATION
      (Some (fun s => capabilities_present s && validation_completed s))
      "Requirements MUST be validated against capabilities";
    transition VALIDATE_INFO ASK_PROJECT_TYPE
      (Some (fun s => completion_percentage s <? 100))
      "Info incomplete, restart collection";
    transition SUMMARY_CONFIRMATION PLANNING None
      "User confirmed via confirm_project_creation function";
    transition PLANNING EXECUTING
      (Some (fun s => match execution_plan s with
                      | Some p => (0 <? Z.of_nat (length (steps p)))
                      | None => false
                      end))
      "Plan generated, start execution";
    transition EXECUTING VERIFYING
      (Some (fun s => (0 <? Z.of_nat (length (execution_results s)))))
      "Commands executed, verify results";
    transition VERIFYING COMPLETED None "Verification passed, project complete" ].

(** The loop [for state in ConversationState] at the end of
    [_setup_transitions]. *)
Definition error_transitions : list StateTransition :=
  flat_map
    (fun st =>
       if state_eqb st ERROR || state_eqb st ABORTED then []
       else [ transition st ERROR
                (Some (fun s => match error_message s with
                                | Some _ => true
                                | None => false
                                end))
                "Error occurred";
              transition st ABORTED None "User aborted" ])
    all_states.

(** [self.transitions] after [__init__]. *)
Definition transitions : list StateTransition :=
  flow_transitions ++ error_transitions.

(** [get_valid_transitions] *)
Definition get_valid_transitions (s : SessionState) : list StateTransition :=
  List.filter (fun t => can_transition t s) transitions.

(** [get_next_state] *)
Definition get_next_state (s : SessionState) : option ConversationState :=
  match get_valid_transitions s with
  | [] => None
  | t :: _ => Some (to_state t)
  end.

(** [transition_to] *)
Definition transition_to (now : Z) (s : SessionState) (target : ConversationState)
    (force : bool) : bool * SessionState :=
  if force then (true, update_state now target s)
  else
    match find (fun t => state_eqb (from_state t) (current_state s) &&
                         state_eqb (to_state t) target &&
                         can_transition t s) transitions with
    | Some t => (true, execute now t s)
    | None => (false, s)
    end.

(** [auto_transition]: the new state, if a transition fired, and the
    session as it was left. *)
Definition auto_transition (now : Z) (s : SessionState)
  : option ConversationState * SessionState :=
  match get_valid_transitions s with
  | t :: _ =>
      let s' := execute now t s in
      (Some (current_state s'), s')
  | [] => (None, s)
  end.

(** The step relation of the claim about [auto_transition]: either a
    transition fires, or the rest of the program changes the session
    without touching its current state (action handlers fill in the
    requirements, the plan, the results, ...).  [reaches s0 visited s]
    holds when [s] is reached from [s0], leaving behind the states
    [visited], oldest first. *)
Inductive reaches (s0 : SessionState)
  : list ConversationState -> SessionState -> Prop :=
| reaches_start : reaches s0 [] s0
| reaches_fire visited s1 now st' s2 :
    reaches s0 visited s1 ->
    auto_transition now s1 = (Some st', s2) ->
    reaches s0 (visited ++ [current_state s1]) s2
| reaches_mutate visited s1 s2 :
    reaches s0 visited s1 ->
    current_state s2 = current_state s1 ->
    reaches s0 visited s2.

(** A run written down as a script: [Fire now] calls [auto_transition]
    at time [now], [Mutate f] lets the rest of the program update the
    session by [f], which must leave the current state alone.  [play]
    returns the states left behind and the session reached, or [None]
    when a move is impossible. *)
Inductive Move : Type :=
| Fire (now : Z)
| Mutate (f : SessionState -> SessionState).

Fixpoint play (moves : list Move) (visited : list ConversationState)
    (s : SessionState) : option (list ConversationState * SessionState) :=
  match moves with
  | [] => Some (visited, s)
  | Fire now :: rest =>
      match auto_transition now s with
      | (Some _, s') => play rest (visited ++ [current_state s]) s'
      | (None, _) => None
      end
  | Mutate f :: rest =>
      if state_eqb (current_state (f s)) (current_state s)
      then play rest visited (f s)
      else None
  end.

End StateMachine.

(* ===================================================================== *)
(** ** The outside world *)
(* ===================================================================== *)

(** A JSON envelope sent over the websocket: [{type, data}]. *)
Record Event : Type := {
  ev_type : string;
  ev_data : list (string * Value)
}.

Definition event (ty : string) : Event := {| ev_type := ty; ev_data := [] |}.

(** The content of a session file, as [load_state] sees it. *)
Inductive FileEntry : Type :=
| Missing                      (* os.path.exists(session_file) is false *)
| Unreadable (e : Exn)         (* opening or reading the file raises *)
| NotJson (e : Exn)            (* json.loads raises JSONDecodeError *)
| BadSchema (e : Exn)          (* validating the document as a SessionState raises *)
| Stored (s : SessionState).   (* the file holds the session [s] *)

(** What running a child process comes to, as [execute_step] sees it. *)
Inductive ProcOutcome : Type :=
| ProcMkdirError (e : Exn)                      (* os.makedirs(cwd) raises *)
| ProcSpawnError (e : Exn)                      (* create_subprocess_exec raises *)
| ProcExited (out err : list string) (code : Z) (* the process ended by itself *)
| ProcTimedOut (out err : list string).         (* asyncio.TimeoutError *)

(** The host: clock and identifiers. *)
Class Host (W : Type) : Type := {
  now : W -> Z;
  uuid4 : W -> string
}.

(** The event channel.  [ws_send] is [websocket.send_json], which raises
    on a closed connection; [manager_send] is the websocket-manager
    fallback the code wraps in its own [try]. *)
Class Channel (W : Type) : Type := {
  ws_send : Event -> M W unit;
  manager_send : Event -> W -> W
}.

(** The session files. *)
Class Disk (W : Type) : Type := {
  fs_read : W -> string -> FileEntry;
  fs_write : string -> SessionState -> M W unit
}.

(** Child processes and the execution log. *)
Class Shell (W : Type) : Type := {
  run_process : list string -> option string -> Z -> W -> ProcOutcome * W;
  append_log : ExecutionResult -> W -> W
}.

(** A chunk of the Gemini stream ([GeminiStreamChunk]). *)
Inductive Chunk : Type :=
| TextChunk (text : string)
| FunctionCallChunk (name : string) (arguments : Dict)
| FinishChunk (finish_reason : string).

(** The reasoning capability.  [gemini_configured] tells whether
    [GeminiStreamingClient()] finds an API key; [open_client] is the
    entry of [async with client]; [stream_completion] yields the chunks
    of one completion and may then raise; [extract_requirements] is the
    requirement extraction of the registry, which answers with the empty
    dictionary whenever anything goes wrong. *)
Class Reasoner (W : Type) : Type := {
  gemini_configured : W -> bool;
  open_client : M W unit;
  stream_completion : SessionState -> W -> (list Chunk * option Exn) * W;
  extract_requirements : SessionState -> W -> Dict * W
}.

(** A channel on which every send succeeds. *)
Definition reliable {W} `{Channel W} : Prop :=
  forall ev w, exists w', ws_send ev w = (Ok tt, w').

(** [if websocket: await websocket.send_json(ev)] *)
Definition send {W} `{Channel W} (websocket : bool) (ev : Event) : M W unit :=
  if websocket then ws_send ev else ret tt.

(** The websocket sends cannot disturb code that was given no websocket
    or whose websocket is reliable. *)
Definition channel_ok {W} `{Channel W} (websocket : bool) : Prop :=
  websocket = false \/ reliable.

(* ===================================================================== *)
(** ** backend/core/session_manager.py *)
(* ===================================================================== *)

Module SessionManager.
Section WithWorld.
Context {W : Type} `{Host W} `{Disk W}.

(** [settings.SESSION_TIMEOUT], in seconds (3600 unless configured). *)
Variable session_timeout : Z.

(** What [save_state] does to the session object before writing it. *)
Definition stamp (t : Z) (s : SessionState) : SessionState :=
  set_state_version (state_version s + 1) (set_updated_at t s).

(** [save_state]: the session, as mutated, is written to the temporary
    file, which then replaces the session file; a failure removes the
    temporary file and is raised again. *)
Definition save_state (sid : string) (s : SessionState) : M W SessionState :=
  let* t := gets now in
  let s' := stamp t s in
  do fs_write sid s' then
  ret s'.

(** [create_session]; [metadata] is the serialised metadata, if any. *)
Definition create_session (session_id : string) (metadata : option string)
  : M W SessionState :=
  let* sid := (if PyStr.truthy session_id then ret session_id else gets uuid4) in
  let* t := gets now in
  let s0 := new_session sid t in
  let s1 := match metadata with
            | Some md =>
                if PyStr.truthy md then
                  set_conversation_history
                    (conversation_history s0 ++
                       [{| role := "system";
                           content := "Session metadata: " +:+ md;
                           msg_timestamp := t |}]) s0
                else s0
            | None => s0
            end in
  save_state sid s1.

(** [_is_session_expired].  [updated_at] is always set on a validated
    session, so the guard [if not session_state.updated_at] never fires. *)
Definition _is_session_expired (t : Z) (s : SessionState) : bool :=
  updated_at s + session_timeout <? t.

(** [load_state] *)
Definition load_state (session_id : string) : M W SessionState :=
  let* entry := gets (fun w => fs_read w session_id) in
  match entry with
  | Missing => create_session session_id None
  | Unreadable _ => create_session session_id None
  | NotJson _ => create_session session_id None
  | BadSchema _ => create_session session_id None
  | Stored s =>
      let* t := gets now in
      if _is_session_expired t s then
        ret (set_error_message (Some "Session expired") (set_current_state ERROR s))
      else ret s
  end.

End WithWorld.
End SessionManager.

(* ===================================================================== *)
(** ** backend/execution/engine.py *)
(* ===================================================================== *)

Module Engine.
Section WithWorld.
Context {W : Type} `{Host W} `{Channel W} `{Shell W}.

Definition output_event (idx : Z) (stream line : string) : Event :=
  {| ev_type := "command_output";
     ev_data := [("step_index", VInt idx); ("stream", VStr stream); ("line", VStr line)] |}.

(** The [command_output] events of [stream_stdout] / [stream_stderr]. *)
Fixpoint stream_lines (websocket : bool) (idx : Z) (stream : string)
    (lines : list string) : M W unit :=
  match lines with
  | [] => ret tt
  | l :: rest =>
      do send websocket (output_event idx stream l) then
      stream_lines websocket idx stream rest
  end.

Definition make_result (idx : Z) (cmd : string) (ok : bool) (out err : string)
    (code : Z) (dur : Z) (start : Z) : ExecutionResult :=
  {| step_index := idx; res_command := cmd; success := ok; stdout := out;
     stderr := err; exit_code := code; duration := dur; res_timestamp := start;
     fallback_used := false; res_retry_count := 0 |}.

(** The tail of the [try] block of [execute_step]: build the result and
    announce it. *)
Definition complete_step (step : ExecutionStep) (idx : Z) (websocket : bool)
    (start : Z) (out err : list string) (code : Z) : M W ExecutionResult :=
  let* t := gets now in
  let result := make_result idx (command step) (code =? 0)
                  (PyStr.join PyStr.newline out) (PyStr.join PyStr.newline err) code (t - start) start in
  do send websocket
       {| ev_type := "command_complete";
          ev_data := [("step_index", VInt idx); ("success", VBool (success result));
                      ("exit_code", VInt code)] |} then
  ret result.

(** [step.working_directory or os.getcwd()]: [None] is the current
    directory of the server. *)
Definition step_cwd (step : ExecutionStep) : option string :=
  match working_directory step with
  | Some d => if PyStr.truthy d then Some d else None
  | None => None
  end.

(** Creating the working directory if it is missing, spawning the
    process and waiting for it, within the step's timeout. *)
Definition spawn (cmd_parts : list string) (cwd : option string) (tmo : Z)
  : M W ProcOutcome :=
  fun w => let (o, w') := run_process cmd_parts cwd tmo w in (Ok o, w').

(** The body of the [try] block of [execute_step]. *)
Definition run_step (step : ExecutionStep) (idx : Z) (websocket : bool)
    (start : Z) : M W ExecutionResult :=
  let cmd_parts := PyStr.split (command step) in
  match cmd_parts with
  | [] => raise "Empty command"
  | _ =>
      let* outcome := spawn cmd_parts (step_cwd step) (timeout step) in
      match outcome with
      | ProcMkdirError e => raise e
      | ProcSpawnError e => raise e
      | ProcExited out err code =>
          do stream_lines websocket idx "stdout" out then
          do stream_lines websocket idx "stderr" err then
          complete_step step idx websocket start out err code
      | ProcTimedOut out err =>
          do stream_lines websocket idx "stdout" out then
          do stream_lines websocket idx "stderr" err then
          complete_step step idx websocket start out
            (err ++ ["Command timed out after " +:+ pretty (timeout step) +:+ " seconds"])
            1
      end
  end.

(** [execute_step] *)
Definition execute_step (step : ExecutionStep) (idx : Z) (websocket : bool)
  : M W ExecutionResult :=
  let* start := gets now in
  try_except (run_step step idx websocket start)
    (fun error_msg =>
       let* t := gets now in
       let result := make_result idx (command step) false "" error_msg 1
                       (t - start) start in
       do send websocket
            {| ev_type := "command_error";
               ev_data := [("step_index", VInt idx); ("error", VStr error_msg)] |} then
       ret result).

(** [_log_execution_result]: whatever goes wrong while logging is
    swallowed. *)
Definition _log_execution_result (r : ExecutionResult) : M W unit :=
  modify (append_log r).

Definition has_fallback (step : ExecutionStep) : option string :=
  match fallback_command step with
  | Some c => if PyStr.truthy c then Some c else None
  | None => None
  end.

(** The step [execute_plan] builds to run the fallback of [step]. *)
Definition fallback_step_of (step : ExecutionStep) (fb : string) : ExecutionStep :=
  make_step fb ("Fallback for: " +:+ description step)
    (working_directory step) (timeout step).

(** How the loop of [execute_plan] ended. *)
Inductive LoopExit : Type :=
| Exhausted      (* every step was visited *)
| Broke.         (* left by [break] *)

(** The [for i, step in enumerate(execution_plan.steps)] loop, from step
    number [i] on, with the results gathered so far. *)
Fixpoint plan_loop (total : Z) (websocket : bool) (todo : list ExecutionStep)
    (i : Z) (results : list ExecutionResult)
  : M W (LoopExit * list ExecutionResult) :=
  match todo with
  | [] => ret (Exhausted, results)
  | step :: rest =>
      do send websocket
           {| ev_type := "command_start";
              ev_data := [("step_index", VInt i); ("total_steps", VInt total);
                          ("command", VStr (command step))] |} then
      let* result := execute_step step i websocket in
      let results := results ++ [result] in
      do _log_execution_result result then
      if success result then plan_loop total websocket rest (i + 1) results
      else
        match has_fallback step with
        | None =>
            do send websocket
                 {| ev_type := "command_error";
                    ev_data := [("step_index", VInt i);
                                ("error", VStr ("Command failed: " +:+ stderr result))] |} then
            ret (Broke, results)
        | Some fb =>
            let fallback_step := fallback_step_of step fb in
            let* fallback_result := execute_step fallback_step i websocket in
            let fallback_result := set_fallback_used true fallback_result in
            let results := results ++ [fallback_result] in
            do _log_execution_result fallback_result then
            if success fallback_result
            then plan_loop total websocket rest (i + 1) results
            else ret (Broke, results)
        end
  end.

(** A command that exits with a non-zero code (or cannot even be run)
    whenever it is run, and a command that exits with code 0 whenever
    it is run. *)
Definition always_fails (step : ExecutionStep) : Prop :=
  forall w out err,
    fst (run_process (PyStr.split (command step)) (step_cwd step) (timeout step) w)
    <> ProcExited out err 0.

Definition always_succeeds (step : ExecutionStep) : Prop :=
  PyStr.split (command step) <> [] /\
  forall w, exists out err,
    fst (run_process (PyStr.split (command step)) (step_cwd step) (timeout step) w)
    = ProcExited out err 0.

(** [execute_plan] *)
Definition execute_plan (plan : ExecutionPlan) (websocket : bool)
  : M W (list ExecutionResult) :=
  let* r := plan_loop (Z.of_nat (length (steps plan))) websocket (steps plan) 0 [] in
  ret (snd r).

End WithWorld.
End Engine.

(* ===================================================================== *)
(** ** Running against a session *)
(* ===================================================================== *)

(** The state of a run of the orchestrator: the session object, which
    the code mutates in place, and the world. *)
Record Run (W : Type) : Type := mkRun {
  sess : SessionState;
  world : W
}.
Arguments mkRun {W} sess world.
Arguments sess {W} r.
Arguments world {W} r.

Definition session {W} : M (Run W) SessionState := gets sess.

Definition on_session {W} (f : SessionState -> SessionState) : M (Run W) unit :=
  modify (fun r => mkRun (f (sess r)) (world r)).

(** An action on the world alone, run with the session left aside. *)
Definition lift {W A} (m : M W A) : M (Run W) A :=
  fun r => let (a, w') := m (world r) in (a, mkRun (sess r) w').

Definition clock {W} `{Host W} : M (Run W) Z := lift (gets now).

Definition notify {W} `{Channel W} (websocket : bool) (ev : Event) : M (Run W) unit :=
  lift (send websocket ev).

(** A registered function: called with the session, the websocket and
    the keyword arguments, it returns a result dictionary. *)
Definition Handler (W : Type) : Type := bool -> Dict -> M (Run W) Dict.

(** A function call emitted by the model: [{name, arguments}]. *)
Record FunctionCall : Type := {
  fc_name : string;
  fc_arguments : Dict
}.

(* ===================================================================== *)
(** ** backend/gemini/function_registry.py *)
(* ===================================================================== *)

Module Registry.

Definition status_of (result : Dict) : Value := dict_get result "status".

Definition failed_result (error_msg : string) : Dict :=
  {[ "error" := VStr error_msg; "status" := VStr "failed" ]}.

(** [reqs.project_type and reqs.language and reqs.project_name] *)
Definition requirements_set (s : SessionState) : bool :=
  value_truthy (project_type (requirements s)) &&
  value_truthy (language (requirements s)) &&
  value_truthy (project_name (requirements s)).

(** [list.remove(x)]: the first occurrence goes. *)
Fixpoint remove_first (x : string) (l : list string) : list string :=
  match l with
  | [] => []
  | y :: r => if String.eqb y x then r else y :: remove_first x r
  end.

Definition init_blocked_functions : list string :=
  ["create_project_with_steps"; "generate_file_content"; "ai_generate_project_steps";
   "validate_requirements_against_capabilities"; "fail_technology_and_switch"].

Definition init_allowed_functions : list string :=
  ["request_permission"; "detect_system_capabilities"; "update_project_requirements"].

Definition unlocked_functions : list string :=
  ["ai_generate_project_steps"; "create_project_with_steps"; "fail_technology_and_switch"].

(** The [state_restrictions] of [_validate_function_for_state], after the
    special case for INIT: the blocked and the allowed functions of the
    current state, if it has restrictions at all. *)
Definition state_restrictions (s : SessionState) : option (list string * list string) :=
  match current_state s with
  | INIT =>
      if requirements_set s then
        Some (fold_left
                (fun blocked func =>
                   if PyStr.mem func blocked then remove_first func blocked else blocked)
                unlocked_functions init_blocked_functions,
              init_allowed_functions ++ unlocked_functions)
      else Some (init_blocked_functions, init_allowed_functions)
  | _ => None
  end.

(** [_validate_function_for_state]: the error message if the function
    is blocked, [None] if it may run. *)
Definition _validate_function_for_state (func_name : string) (s : SessionState)
  : option string :=
  match state_restrictions s with
  | Some (blocked, allowed) =>
      if PyStr.mem func_name blocked then
        Some ("Function '" +:+ func_name +:+ "' is not allowed in " +:+
              state_value (current_state s) +:+ " state. Allowed functions: " +:+
              PyStr.join ", " allowed)
      else None
  | None => None
  end.

(** [_get_allowed_functions_for_state] *)
Definition _get_allowed_functions_for_state (st : ConversationState) : list string :=
  match st with
  | INIT => ["request_permission"; "detect_system_capabilities"]
  | ASK_PROJECT_TYPE => ["update_project_requirements"; "detect_system_capabilities"]
  | PLANNING => ["ai_generate_project_steps"; "create_project_with_steps"]
  | _ => ["All functions allowed"]
  end.

Definition blocked_result (validation_error : string) (s : SessionState) : Dict :=
  {[ "status" := VStr "blocked_by_state_machine";
     "error" := VStr validation_error;
     "current_state" := VStr (state_value (current_state s));
     "allowed_functions" :=
       VList (map VStr (_get_allowed_functions_for_state (current_state s))) ]}.

Definition project_creation_functions : list string :=
  ["create_project_with_steps"; "generate_file_content"; "ai_generate_project_steps";
   "fail_technology_and_switch"].

(** The whole conversation holds nothing but blanks:
    [not conversation_text.strip()]. *)
Definition conversation_blank (s : SessionState) : bool :=
  forallb (fun m => PyStr.all_space (content m)) (conversation_history s).

Section WithWorld.
Context {W : Type} `{Host W} `{Channel W} `{Reasoner W}.

(** [self.functions] *)
Variable functions : gmap string (Handler W).

(** [_extract_requirements_from_conversation] *)
Definition _extract_requirements_from_conversation : M (Run W) Dict :=
  let* s := session in
  match conversation_history s with
  | [] => ret ∅
  | _ =>
      if conversation_blank s then ret ∅
      else lift (fun w => let (d, w') := extract_requirements s w in (Ok d, w'))
  end.

(** [_handle_missing_requirements] *)
Definition _handle_missing_requirements (func_name : string) (websocket : bool)
  : M (Run W) bool :=
  let* s := session in
  if negb (state_eqb (current_state s) INIT) then ret false
  else if negb (PyStr.mem func_name project_creation_functions) then ret false
  else if requirements_set s then ret false
  else
    try_except
      (let* extracted := _extract_requirements_from_conversation in
       if negb (dict_truthy extracted) then ret false
       else
         match functions !! "update_project_requirements" with
         | Some update_func =>
             let* result := update_func websocket extracted in
             let* s' := session in
             do when (state_eqb (current_state s') INIT)
                  (on_session (set_current_state ASK_PROJECT_TYPE)) then
             ret true
         | None => ret false
         end)
      (fun _ => ret false).

Definition registry_entry (func_name : string) (args result : Dict) (t : Z)
  : FunctionResultEntry :=
  {| fr_name := func_name; fr_status := None; fr_args := Some args;
     fr_result := result; fr_timestamp := t |}.

Definition start_event (call : FunctionCall) : Event :=
  {| ev_type := "function_execution_start";
     ev_data := [("name", VStr (fc_name call)); ("args", VDict (fc_arguments call))] |}.

(** [FunctionRegistry.execute] *)
Definition execute (call : FunctionCall) (websocket : bool) : M (Run W) Dict :=
  let func_name := fc_name call in
  let args := fc_arguments call in
  match functions !! func_name with
  | None => ret (failed_result ("Unknown function: " +:+ func_name))
  | Some func =>
      do notify websocket (start_event call) then
      try_except
        (let* auto_call_result := _handle_missing_requirements func_name websocket in
         do when auto_call_result (notify websocket (event "auto_intervention")) then
         let* s := session in
         match _validate_function_for_state func_name s with
         | Some validation_error => ret (blocked_result validation_error s)
         | None =>
             let* result := func websocket args in
             let* t := clock in
             do on_session
                  (fun s => set_function_results
                              (function_results s ++
                                 [registry_entry func_name args result t]) s) then
             do notify websocket
                  {| ev_type := "function_execution_complete";
                     ev_data := [("name", VStr func_name); ("result", VDict result)] |} then
             ret result
         end)
        (fun e =>
           let error_msg :=
             "Function execution error in " +:+ func_name +:+ ": " +:+ e in
           do notify websocket
                {| ev_type := "function_execution_error";
                   ev_data := [("name", VStr func_name); ("error", VStr error_msg)] |} then
           ret (failed_result error_msg))
  end.

(** The registered function [ask_user_preference]. *)
Definition ask_user_preference : Handler W := fun websocket args =>
  if negb (kwargs_bind args ["field"; "options"; "question"] ["default"])
  then raise "TypeError: ask_user_preference() got unexpected or missing arguments"
  else
    do on_session
         (fun s =>
            set_waiting_for_user true
              (set_pending_question
                 (Some {[ "type" := VStr "choice";
                          "field" := dict_get args "field";
                          "options" := dict_get args "options";
                          "question" := dict_get args "question";
                          "default" := dict_get args "default" ]}) s)) then
    ret {[ "status" := VStr "waiting_for_user"; "field" := dict_get args "field" ]}.

(** The registered function [request_permission]. *)
Definition request_permission : Handler W := fun websocket args =>
  if negb (kwargs_bind args ["permission_type"; "scope"; "reason"] ["required"])
  then raise "TypeError: request_permission() got unexpected or missing arguments"
  else
    let permission_type := dict_get args "permission_type" in
    let scope := dict_get args "scope" in
    let reason := dict_get args "reason" in
    let required := match args !! "required" with Some v => v | None => VBool true end in
    do on_session
         (fun s =>
            set_waiting_for_user true
              (set_pending_question
                 (Some {[ "type" := VStr "permission";
                          "permission_type" := permission_type;
                          "scope" := scope;
                          "reason" := reason;
                          "required" := required;
                          "question" :=
                            VStr ("Grant " +:+ value_str permission_type +:+
                                  " permission for: " +:+ value_str scope +:+ "?" +:+
                                  PyStr.newline +:+ "Reason: " +:+ value_str reason) ]})
                 s)) then
    ret {[ "status" := VStr "permission_requested"; "type" := permission_type;
           "scope" := scope ]}.

(** The registered function [update_conversation_state]. *)
Definition update_conversation_state : Handler W := fun websocket args =>
  if negb (kwargs_bind args ["new_state"] ["reason"])
  then raise "TypeError: update_conversation_state() got unexpected or missing arguments"
  else
    let* s := session in
    let old_state := current_state s in
    match dict_get args "new_state" with
    | VStr new_state =>
        match state_of_value new_state with
        | Some target =>
            let* t := clock in
            do on_session
                 (fun s =>
                    let s1 := update_state t target s in
                    set_state_history
                      (state_history s1 ++
                         [{| sc_from := state_value old_state; sc_to := new_state;
                             sc_reason := match dict_get args "reason" with
                                          | VStr r => Some r
                                          | _ => None
                                          end;
                             sc_timestamp := t |}]) s1) then
            ret {[ "status" := VStr "state_updated";
                   "old_state" := VStr (state_value old_state);
                   "new_state" := VStr new_state ]}
        | None =>
            raise ("ValueError: '" +:+ new_state +:+ "' is not a valid ConversationState")
        end
    | v => raise ("ValueError: " +:+ value_str v +:+ " is not a valid ConversationState")
    end.

(** [_reset_execution_state] *)
Definition _reset_execution_state (s : SessionState) : SessionState :=
  set_state_version (state_version s + 1)
    (set_should_regenerate_steps true
       (set_error_message None
          (set_completion_percentage 0
             (set_execution_plan None (set_execution_results [] s))))).

Definition failed_technology_of (failed_command : string) : string :=
  let c := PyStr.lower failed_command in
  if PyStr.contains "react-native" c then "React Native"
  else if PyStr.contains "npm create" c && PyStr.contains "react" c then "React/Node.js"
  else if PyStr.contains "python" c then "Python"
  else if PyStr.contains "pip" c then "Python/pip"
  else "Command: " +:+ failed_command.

(** [_try_technology_switch]: ask the registered function
    [fail_technology_and_switch] for another stack and, when it says the
    technology was switched, raise the regeneration flag. *)
Definition _try_technology_switch (websocket : bool)
    (failed_command error_message step_description : string) (step_num : Z)
  : M (Run W) unit :=
  try_except
    (let failed_tech := failed_technology_of failed_command in
     let* s := session in
     let project_type_text :=
       if value_truthy (project_type (requirements s))
       then value_str (project_type (requirements s)) else "application" in
     let project_requirements :=
       "User wants to build a " +:+ project_type_text +:+
       (if value_truthy (project_name (requirements s))
        then " called '" +:+ value_str (project_name (requirements s)) +:+ "'"
        else "") in
     let* switch_result :=
       execute
         {| fc_name := "fail_technology_and_switch";
            fc_arguments :=
              {[ "failed_technology" := VStr failed_tech;
                 "failure_reason" :=
                   VStr ("Command failed: " +:+ failed_command +:+ " - " +:+ error_message);
                 "project_requirements" := VStr project_requirements ]} |}
         websocket in
     if is_str (status_of switch_result) "technology_switched" then
       match switch_result !! "new_language", switch_result !! "new_framework" with
       | Some _, Some _ =>
           do (if websocket then
                 match switch_result !! "reason" with
                 | Some _ => notify websocket (event "technology_switch_complete")
                 | None => raise "KeyError: 'reason'"
                 end
               else ret tt) then
           on_session (set_should_regenerate_steps true)
       | None, _ => raise "KeyError: 'new_language'"
       | _, None => raise "KeyError: 'new_framework'"
       end
     else notify websocket (event "technology_switch_failed"))
    (fun e => notify websocket
                {| ev_type := "technology_switch_error";
                   ev_data := [("step", VInt step_num); ("error", VStr e)] |}).

End WithWorld.
End Registry.

(* ===================================================================== *)
(** ** backend/core/agent.py *)
(* ===================================================================== *)

(** The texts of chat messages and events are given without their
    leading pictograms. *)
Module Agent.

Definition affirmative_tokens : list string :=
  ["yes"; "y"; "ok"; "allow"; "grant"; "approve"].

(** [for option in options]: what the loop iterates over.  A list gives
    its elements, a string its characters, a dictionary its keys;
    anything else is not iterable ([None] stands for the [TypeError]). *)
Definition py_iter (v : Value) : option (list Value) :=
  match v with
  | VList l => Some l
  | VStr s => Some (map (fun c => VStr (String c "")) (list_ascii_of_string s))
  | VDict d => Some (map (fun kv => VStr (fst kv)) (map_to_list d))
  | _ => None
  end.

(** The loop that looks for the selected option: the first option equal
    to the answer, or containing it, both in lower case.  An option
    that is not a string has no [lower] method. *)
Fixpoint find_option (user_lower : string) (options : list Value) : Res (option string) :=
  match options with
  | [] => Ok None
  | VStr option :: rest =>
      if String.eqb (PyStr.lower option) user_lower ||
         PyStr.contains user_lower (PyStr.lower option)
      then Ok (Some option)
      else find_option user_lower rest
  | _ :: _ => Raise "AttributeError: object has no attribute 'lower'"
  end.

Definition option_texts (options : list Value) : list string :=
  map value_str options.

(** [project_type_mappings] of [_map_project_type_string], in the order
    of the dictionary literal. *)
Definition project_type_mappings : list (string * ProjectType) :=
  [ ("web app", FULLSTACK); ("web application", FULLSTACK); ("website", FRONTEND);
    ("frontend", FRONTEND); ("web frontend", FRONTEND); ("react app", FRONTEND);
    ("vue app", FRONTEND); ("angular app", FRONTEND);
    ("api", WEB_API); ("web api", WEB_API); ("rest api", WEB_API);
    ("backend", WEB_API); ("web backend", WEB_API); ("server", WEB_API);
    ("fullstack", FULLSTACK); ("full stack", FULLSTACK); ("full-stack", FULLSTACK);
    ("fullstack app", FULLSTACK); ("todo app", FULLSTACK);
    ("web app with backend", FULLSTACK);
    ("cli", CLI); ("command line", CLI); ("command line tool", CLI);
    ("terminal app", CLI);
    ("mobile", MOBILE_APP); ("mobile app", MOBILE_APP); ("android app", MOBILE_APP);
    ("ios app", MOBILE_APP);
    ("library", LIBRARY); ("package", LIBRARY); ("sdk", LIBRARY);
    ("microservice", MICROSERVICE); ("micro service", MICROSERVICE);
    ("service", MICROSERVICE) ].

(** [_map_project_type_string] *)
Definition _map_project_type_string (project_type_input : string) : ProjectType :=
  let input_lower := PyStr.strip (PyStr.lower project_type_input) in
  match find (fun kv => String.eqb (fst kv) input_lower) project_type_mappings with
  | Some (_, pt) => pt
  | None =>
      match find (fun kv => PyStr.contains (fst kv) input_lower ||
                            PyStr.contains input_lower (fst kv))
                 project_type_mappings with
      | Some (_, pt) => pt
      | None =>
          match find (fun pt => String.eqb (PyStr.lower (project_type_value pt))
                                           input_lower) all_project_types with
          | Some pt => pt
          | None => FULLSTACK
          end
      end
  end.

(** The chat message that asks again after an answer that matches no
    option. *)
Definition reprompt (user_input : string) (options : list Value) : string :=
  "I didn't understand '" +:+ user_input +:+ "'. Please choose from: " +:+
  PyStr.join ", " (option_texts options).

Definition advancement_statuses : list string :=
  ["completed"; "capabilities_detected"; "capabilities_already_detected";
   "requirements_updated"; "updated"; "validation_complete"; "confirmed";
   "plan_generated"; "ai_recovery_needed"].

Definition blocking_statuses : list string :=
  ["waiting_for_user"; "permission_requested"; "error"; "failed"; "needs_retry";
   "executing"; "validating"].

(** [status in statuses] for a status that may be anything. *)
Definition status_in (status : Value) (statuses : list string) : bool :=
  match status with
  | VStr s => PyStr.mem s statuses
  | _ => false
  end.

Definition entry_status (e : FunctionResultEntry) : Value :=
  match fr_status e with Some v => v | None => VNone end.

Definition agent_entry (name : string) (status : Value) (result : Dict) (t : Z)
  : FunctionResultEntry :=
  {| fr_name := name; fr_status := Some status; fr_args := None;
     fr_result := result; fr_timestamp := t |}.

(** Appending to [function_results] and then keeping "only the last 10":
    one [pop(0)] when the list has grown beyond ten entries. *)
Definition store_result (e : FunctionResultEntry) (s : SessionState) : SessionState :=
  let l := function_results s ++ [e] in
  set_function_results (if (10 <? Z.of_nat (length l)) then tail l else l) s.

Definition pending_truthy (s : SessionState) : bool :=
  match pending_question s with
  | Some q => dict_truthy q
  | None => false
  end.

(** [status == "waiting_for_user" or status == "permission_requested"] *)
Definition asks_user (status : Value) : bool :=
  is_str status "waiting_for_user" || is_str status "permission_requested".

(** The questions [_handle_user_response] knows how to close: those of
    type [choice] and those of type [permission], which are the two
    kinds the registry creates. *)
Definition known_question (q : Dict) : Prop :=
  is_str (dict_get q "type") "choice" = true \/
  is_str (dict_get q "type") "permission" = true.

(** The session invariant, together with the fact that the pending
    question, if any, is of a known kind. *)
Definition prompt_consistent (s : SessionState) : Prop :=
  prompt_invariant s /\ forall q, pending_question s = Some q -> known_question q.

(** What the orchestrator expects of a registered function: it keeps
    the session consistent, and when it answers that it waits for the
    user it has stored a question.  [ask_user_preference] and
    [request_permission] are the only functions of the registry that
    write the question or the flag, and the only ones that answer with
    such a status. *)
Definition respects_prompt {W} (h : Handler W) : Prop :=
  forall websocket args r,
    prompt_consistent (sess r) ->
    prompt_consistent (sess (snd (h websocket args r))) /\
    forall result,
      fst (h websocket args r) = Ok result ->
      asks_user (Registry.status_of result) = true ->
      pending_question (sess (snd (h websocket args r))) <> None.

(** Assertions on a run that read nothing of it but the pending
    question and the waiting flag of the session. *)
Definition prompt_only {W} (P : Run W -> Prop) : Prop :=
  forall r r',
    pending_question (sess r') = pending_question (sess r) ->
    waiting_for_user (sess r') = waiting_for_user (sess r) ->
    P r -> P r'.

(** A computation that keeps [P], however it ends. *)
Definition stable {W A} (P : Run W -> Prop) (m : M (Run W) A) : Prop :=
  hoare P m (fun _ => P) P.

Definition consistent {W} (r : Run W) : Prop := prompt_consistent (sess r).

(** The run after a registered function has answered [result]. *)
Definition asked {W} (result : Dict) (r : Run W) : Prop :=
  prompt_consistent (sess r) /\
  (asks_user (Registry.status_of result) = true -> pending_question (sess r) <> None).

Section WithWorld.
Context {W : Type} `{Host W} `{Channel W} `{Disk W} `{Reasoner W}.

(** [function_registry.functions] *)
Variable functions : gmap string (Handler W).

(** The attribute names a pydantic model answers to besides its fields
    ([model_dump], [copy], ...): [hasattr] holds for them, [setattr]
    raises. *)
Variable model_attribute : string -> bool.

(** [_should_advance_workflow] *)
Definition _should_advance_workflow (websocket : bool) : M (Run W) bool :=
  let* s := session in
  if waiting_for_user s || pending_truthy s then ret false
  else
    match last (function_results s) with
    | None => ret true
    | Some last_function =>
        let function_name := fr_name last_function in
        let status := entry_status last_function in
        if is_str status "permission_requested" &&
           String.eqb function_name "request_permission" &&
           state_eqb (current_state s) INIT
        then
          (* any(perm.get('granted', False) ...) over Permission objects *)
          if bool_decide (permissions s = ∅) then
            do notify websocket (event "advancement_blocked") then ret false
          else raise "AttributeError: 'Permission' object has no attribute 'get'"
        else if status_in status blocking_statuses then
          do notify websocket (event "advancement_blocked") then ret false
        else if status_in status advancement_statuses then
          match current_state s with
          | INIT => ret (negb (bool_decide (permissions s = ∅)))
          | CHECK_SYSTEM_CAPABILITIES =>
              ret (match capabilities s with Some _ => true | None => false end)
          | ASK_PROJECT_TYPE | ASK_PROJECT_NAME_FOLDER | ASK_ADDITIONAL_DETAILS =>
              ret (negb (value_is_none (project_type (requirements s))))
          | PLANNING =>
              ret (match execution_plan s with Some _ => true | None => false end)
          | _ => ret true
          end
        else
          do notify websocket (event "advancement_uncertain") then ret false
    end.

(** The branch of [_handle_user_response] for a question of type
    [choice]. *)
Definition answer_choice (question : Dict) (user_input : string) (websocket : bool)
  : M (Run W) bool :=
  let field := dict_get question "field" in
  let options := match question !! "options" with Some v => v | None => VList [] end in
  let user_lower := PyStr.strip (PyStr.lower user_input) in
  match py_iter options with
  | None => raise "TypeError: object is not iterable"
  | Some opts =>
      match find_option user_lower opts with
      | Raise e => raise e
      | Ok selected =>
          let accepted := match selected with
                          | Some o => if PyStr.truthy o then Some o else None
                          | None => None
                          end in
          match accepted with
          | Some selected_option =>
              let* stored :=
                match field with
                | VStr f =>
                    if PyStr.mem f requirement_fields then
                      let v := if String.eqb f "project_type"
                               then project_type_value
                                      (_map_project_type_string selected_option)
                               else selected_option in
                      do on_session
                           (fun s => set_requirements
                                       (set_requirement f (VStr v) (requirements s)) s) then
                      ret v
                    else if model_attribute f then
                      raise ("ValueError: ProjectRequirements object has no field " +:+ f)
                    else ret selected_option
                | _ => raise "TypeError: attribute name must be string"
                end in
              let* t := clock in
              do on_session
                   (add_message t "assistant"
                      ("Great! I've noted that you want " +:+ value_str field +:+
                       ": " +:+ stored)) then
              do on_session (set_pending_question None) then
              do notify websocket
                   {| ev_type := "choice_accepted";
                      ev_data := [("field", field); ("value", VStr stored)] |} then
              ret true
          | None =>
              let* t := clock in
              do on_session (add_message t "assistant" (reprompt user_input opts)) then
              do notify websocket
                   {| ev_type := "choice_invalid";
                      ev_data := [("user_input", VStr user_input);
                                  ("valid_options", options)] |} then
              ret false
          end
      end
  end.

(** The branch of [_handle_user_response] for a question of type
    [permission]. *)
Definition answer_permission (question : Dict) (user_input : string) (websocket : bool)
  : M (Run W) bool :=
  let permission_granted :=
    PyStr.mem (PyStr.strip (PyStr.lower user_input)) affirmative_tokens in
  do (if permission_granted then
        match dict_get question "permission_type", dict_get question "scope" with
        | VStr ptype, VStr scope =>
            let* t := clock in
            do on_session
                 (fun s => set_permissions
                             (<[scope := {| perm_type := ptype; perm_scope := scope;
                                            granted := true; perm_timestamp := t;
                                            revoked := None |}]> (permissions s)) s) then
            let* t' := clock in
            do on_session
                 (add_message t' "assistant"
                    ("Permission granted for " +:+ scope +:+ ". Thank you!")) then
            do notify websocket
                 {| ev_type := "permission_granted"; ev_data := [("scope", VStr scope)] |} then
            (* the capability detection started right away; its failures
               are swallowed *)
            try_except
              (match functions !! "detect_system_capabilities" with
               | Some detect_func =>
                   let* result := detect_func websocket {[ "force_refresh" := VBool false ]} in
                   when (websocket &&
                         is_str (Registry.status_of result) "capabilities_detected")
                     (notify websocket (event "capabilities_auto_detected"))
               | None => ret tt
               end)
              (fun _ => ret tt)
        | _, _ => raise "ValidationError: Permission type and scope must be strings"
        end
      else
        let* t := clock in
        do on_session
             (add_message t "assistant"
                "Permission denied. I'll work with the available permissions.") then
        notify websocket
          {| ev_type := "permission_denied";
             ev_data := [("scope", dict_get question "scope")] |}) then
  do on_session (set_pending_question None) then
  ret true.

(** [_handle_user_response]: [true] if the answer was valid. *)
Definition _handle_user_response (user_input : string) (websocket : bool)
  : M (Run W) bool :=
  let* s := session in
  match pending_question s with
  | None => ret true
  | Some question =>
      if negb (dict_truthy question) then ret true
      else
        let question_type := dict_get question "type" in
        if is_str question_type "choice" then answer_choice question user_input websocket
        else if is_str question_type "permission"
        then answer_permission question user_input websocket
        else ret true
  end.

(** A send wrapped in its own [try], with the websocket manager as the
    fallback. *)
Definition guarded_send (ev : Event) : M (Run W) unit :=
  try_except (notify true ev) (fun _ => lift (modify (manager_send ev))).

(** [session_manager.save_state(session_id, session_state)] on the
    session object of the run. *)
Definition save_session : M (Run W) unit :=
  let* t := clock in
  do on_session (SessionManager.stamp t) then
  let* s := session in
  lift (fs_write (session_id s) s).

(** What [_process_with_gemini] does with the result of a function call;
    [true] when the loop over the stream is left by [break]. *)
Definition handle_function_result (websocket : bool) (call : FunctionCall)
    (func_result : Dict) : M (Run W) bool :=
  let status := Registry.status_of func_result in
  do notify websocket
       {| ev_type := "function_result";
          ev_data := [("function_name", VStr (fc_name call)); ("status", status)] |} then
  if asks_user status then
    do on_session (set_waiting_for_user true) then
    do notify websocket (event "permission_request") then
    ret true
  else
    do (if is_str status "completed" then
          notify websocket (event "function_completed")
        else if is_str status "capabilities_detected" ||
                is_str status "capabilities_already_detected" then
          do on_session (set_capabilities_detected true) then
          notify websocket (event "capabilities_ready")
        else if is_str status "requirements_updated" then
          notify websocket (event "requirements_updated")
        else if is_str status "execution_completed" then
          do when websocket
               (do guarded_send (event "project_creation_success") then
                guarded_send (event "workflow_complete")) then
          let* t := clock in
          on_session (update_state t COMPLETED)
        else if is_str status "plan_generated" then
          do notify websocket (event "plan_ready") then
          let* exec_result :=
            Registry.execute functions
              {| fc_name := "execute_project_creation";
                 fc_arguments := {[ "confirm_execution" := VBool true ]} |}
              websocket in
          when (is_str (Registry.status_of exec_result) "execution_completed")
            (notify websocket (event "project_created"))
        else if is_str status "error" || is_str status "failed" then
          notify websocket (event "function_error")
        else if is_str status "needs_retry" then
          notify websocket (event "function_retry")
        else ret tt) then
    let* t := clock in
    do on_session (store_result (agent_entry (fc_name call) status func_result t)) then
    ret false.

(** The end of a completion: the [finish] chunk.  [again] is the
    recursive call of [_process_with_gemini]. *)
Definition finish_turn (again : M (Run W) unit) (websocket : bool)
    (accumulated_response : string) : M (Run W) unit :=
  do (if negb (PyStr.all_space accumulated_response) then
        let* t := clock in
        on_session (add_message t "assistant" accumulated_response)
      else ret tt) then
  let* should_transition := _should_advance_workflow websocket in
  let* s := session in
  let old_state := current_state s in
  let* state_changed :=
    (if should_transition then
       do notify websocket (event "workflow_advancing") then
       let* t := clock in
       do on_session (fun s => snd (StateMachine.auto_transition t s)) then
       let* s' := session in
       let changed := negb (state_eqb old_state (current_state s')) in
       do when changed (notify websocket (event "state_transitioned")) then
       ret changed
     else
       do notify websocket (event "workflow_waiting") then
       ret false) in
  do on_session (fun s => set_iteration_count (iteration_count s + 1) s) then
  do notify websocket (event "iteration_complete") then
  if should_transition && state_changed then
    do save_session then
    again
  else ret tt.

(** The loop [async for chunk in client.stream_completion(...)].  It
    returns [true] when it is left by [break], [false] when the stream
    is exhausted. *)
Fixpoint consume (again : M (Run W) unit) (websocket : bool) (chunks : list Chunk)
    (accumulated_response : string) : M (Run W) bool :=
  match chunks with
  | [] => ret false
  | TextChunk text :: rest =>
      do notify websocket
           {| ev_type := "ai_message_chunk"; ev_data := [("chunk", VStr text)] |} then
      consume again websocket rest (accumulated_response +:+ text)
  | FunctionCallChunk name arguments :: rest =>
      let call := {| fc_name := name; fc_arguments := arguments |} in
      do notify websocket
           {| ev_type := "function_call_detected";
              ev_data := [("name", VStr name); ("arguments", VDict arguments)] |} then
      let* func_result := Registry.execute functions call websocket in
      let* stop := handle_function_result websocket call func_result in
      if stop then ret true
      else consume again websocket rest accumulated_response
  | FinishChunk _ :: _ =>
      do finish_turn again websocket accumulated_response then
      ret true
  end.

(** [_process_with_gemini].  [depth] bounds the nesting of the recursive
    calls, as the interpreter's recursion limit does: going deeper
    raises [RecursionError]. *)
Fixpoint _process_with_gemini (depth : nat) (websocket : bool) : M (Run W) unit :=
  match depth with
  | O => raise "RecursionError: maximum recursion depth exceeded"
  | S depth' =>
      let* configured := lift (gets gemini_configured) in
      if negb configured then
        (* except ValueError: the API key is not configured *)
        notify websocket
          {| ev_type := "error"; ev_data := [("error", VStr "configuration_error")] |}
      else
        let* s := session in
        do lift open_client then
        try_except
          (let* stream :=
             lift (fun w => let (r, w') := stream_completion s w in (Ok r, w')) in
           let* left_by_break :=
             consume (_process_with_gemini depth' websocket) websocket (fst stream) "" in
           match snd stream with
           | Some e => if left_by_break then ret tt else raise e
           | None => ret tt
           end)
          (fun e =>
             let error_response :=
               "I encountered an error: " +:+ e +:+
               ". Let me try to help you differently." in
             let* t := clock in
             do on_session (add_message t "assistant" error_response) then
             notify websocket
               {| ev_type := "ai_message"; ev_data := [("message", VStr error_response)] |})
  end.

(** The [except] block of [process_conversation]. *)
Definition turn_failed (websocket : bool) (e : Exn) : M (Run W) unit :=
  do on_session (set_error_message (Some e)) then
  notify websocket {| ev_type := "error"; ev_data := [("message", VStr e)] |}.

(** [process_conversation]: one turn of the orchestrator. *)
Definition process_conversation (depth : nat) (user_input : string) (websocket : bool)
  : M (Run W) unit :=
  try_except
    (let* t := clock in
     do on_session (add_message t "user" user_input) then
     let* s := session in
     if pending_truthy s then
       let* response_valid := _handle_user_response user_input websocket in
       let* s' := session in
       if response_valid && waiting_for_user s' then
         do on_session (set_waiting_for_user false) then
         do notify websocket (event "user_response_processed") then
         _process_with_gemini depth websocket
       else _process_with_gemini depth websocket
     else _process_with_gemini depth websocket)
    (turn_failed websocket).

End WithWorld.
End Agent.

(* ===================================================================== *)
(** ** Concrete sessions and worlds used by the examples *)
(* ===================================================================== *)

Module Fixtures.

(** A scripted world: a clock that stands still, a websocket that is
    up or down, session files, a shell in which the program [false]
    exits with code 1 and every other program with code 0, and the
    completions Gemini will stream, one per request. *)
Record SimWorld : Type := {
  sim_time : Z;
  sim_ws_up : bool;
  sim_sent : list Event;
  sim_files : gmap string FileEntry;
  sim_log : list ExecutionResult;
  sim_api_key : bool;
  sim_streams : list (list Chunk)
}.

Definition sim_deliver (ev : Event) (w : SimWorld) : SimWorld :=
  {| sim_time := sim_time w; sim_ws_up := sim_ws_up w; sim_sent := sim_sent w ++ [ev];
     sim_files := sim_files w; sim_log := sim_log w;
     sim_api_key := sim_api_key w; sim_streams := sim_streams w |}.

Definition sim_store (sid : string) (s : SessionState) (w : SimWorld) : SimWorld :=
  {| sim_time := sim_time w; sim_ws_up := sim_ws_up w; sim_sent := sim_sent w;
     sim_files := <[sid := Stored s]> (sim_files w);
     sim_log := sim_log w; sim_api_key := sim_api_key w;
     sim_streams := sim_streams w |}.

Definition sim_append_log (r : ExecutionResult) (w : SimWorld) : SimWorld :=
  {| sim_time := sim_time w; sim_ws_up := sim_ws_up w; sim_sent := sim_sent w;
     sim_files := sim_files w; sim_log := sim_log w ++ [r];
     sim_api_key := sim_api_key w; sim_streams := sim_streams w |}.

Definition sim_next_stream (w : SimWorld) : SimWorld :=
  {| sim_time := sim_time w; sim_ws_up := sim_ws_up w; sim_sent := sim_sent w;
     sim_files := sim_files w; sim_log := sim_log w;
     sim_api_key := sim_api_key w; sim_streams := tail (sim_streams w) |}.

#[global] Instance sim_host : Host SimWorld :=
  {| now := sim_time; uuid4 := fun _ => "00000000-0000-4000-8000-000000000000" |}.

#[global] Instance sim_channel : Channel SimWorld :=
  {| ws_send := fun ev w =>
       if sim_ws_up w then (Ok tt, sim_deliver ev w)
       else (Raise "WebSocket is not connected", w);
     manager_send := fun _ w => w |}.

#[global] Instance sim_disk : Disk SimWorld :=
  {| fs_read := fun w sid => match sim_files w !! sid with
                             | Some e => e
                             | None => Missing
                             end;
     fs_write := fun sid s w => (Ok tt, sim_store sid s w) |}.

#[global] Instance sim_shell : Shell SimWorld :=
  {| run_process := fun parts _ _ w =>
       match parts with
       | prog :: _ =>
           if String.eqb prog "false"
           then (ProcExited [] [prog +:+ ": failed"] 1, w)
           else (ProcExited ["ok"] [] 0, w)
       | [] => (ProcSpawnError "no program", w)
       end;
     append_log := sim_append_log |}.

#[global] Instance sim_reasoner : Reasoner SimWorld :=
  {| gemini_configured := sim_api_key;
     open_client := ret tt;
     stream_completion := fun _ w =>
       match sim_streams w with
       | chunks :: _ => ((chunks, None), sim_next_stream w)
       | [] => (([], Some "Gemini API error: 500"), w)
       end;
     extract_requirements := fun _ w => (∅, w) |}.

Definition quiet_world : SimWorld :=
  {| sim_time := 10000; sim_ws_up := true; sim_sent := []; sim_files := ∅;
     sim_log := []; sim_api_key := true; sim_streams := [] |}.

Definition fresh : SessionState := new_session "s1" 0.

(** The fresh session was written at time 0; the clock of
    [quiet_world] reads 10000. *)
Definition stale_world : SimWorld := sim_store "s1" fresh quiet_world.

Definition a_step : ExecutionStep := make_step "mkdir todo" "Create project directory" None 30.

Definition a_plan : ExecutionPlan :=
  {| steps := [a_step]; total_steps := 1; estimated_duration := 0;
     requires_permissions := []; plan_created_at := 0 |}.

Definition a_result : ExecutionResult :=
  {| step_index := 0; res_command := "mkdir todo"; success := true; stdout := "";
     stderr := ""; exit_code := 0; duration := 0; res_timestamp := 0;
     fallback_used := false; res_retry_count := 0 |}.

Definition some_capabilities : SystemCapability :=
  {| os := "Linux"; shell := "bash"; python_version := Some "3.12";
     node_version := None; npm_version := None; docker_installed := false;
     git_installed := true; available_package_managers := ["pip"];
     available_runtimes := {["python" := "3.12"]}; environment_variables := ∅;
     detection_completed := true |}.

Definition cli_requirements : ProjectRequirements :=
  set_requirement "folder_path" (VStr "./todo")
    (set_requirement "project_name" (VStr "todo")
       (set_requirement "language" (VStr "python")
          (set_requirement "project_type" (VStr "cli") default_requirements))).

(** A whole workflow, from the fresh session to COMPLETED. *)
Definition full_workflow : list StateMachine.Move :=
  [ StateMachine.Fire 1;
    StateMachine.Mutate (set_requirements cli_requirements);
    StateMachine.Fire 2;
    StateMachine.Fire 3;
    StateMachine.Mutate (fun s => set_completion_percentage 100
                                    (set_validation_completed true
                                       (set_capabilities (Some some_capabilities) s)));
    StateMachine.Fire 4;
    StateMachine.Fire 5;
    StateMachine.Mutate (set_execution_plan (Some a_plan));
    StateMachine.Fire 6;
    StateMachine.Mutate (set_execution_results [a_result]);
    StateMachine.Fire 7;
    StateMachine.Fire 8 ].

Definition workflow_visited : list ConversationState :=
  [INIT; ASK_PROJECT_TYPE; ASK_PROJECT_NAME_FOLDER; CHECK_SYSTEM_CAPABILITIES;
   VALIDATE_INFO; PLANNING; EXECUTING; VERIFYING].

Definition workflow_end : SessionState :=
  match StateMachine.play full_workflow [] fresh with
  | Some (_, s) => s
  | None => fresh
  end.

Definition completed_session : SessionState := set_current_state COMPLETED fresh.

(** Steps for the execution engine: [false] always fails, [true] always
    succeeds. *)
Definition failing_step : ExecutionStep :=
  make_step "false" "A command that fails" None 30.

Definition recovering_step : ExecutionStep :=
  {| command := "false --primary"; description := "Fails, then recovers";
     working_directory := None; fallback_command := Some "true --fallback";
     expected_output_pattern := None; timeout := 30; retry_count := 0;
     requires_permission := false |}.

Definition plan_of (l : list ExecutionStep) : ExecutionPlan :=
  {| steps := l; total_steps := Z.of_nat (length l); estimated_duration := 0;
     requires_permissions := []; plan_created_at := 0 |}.

(** The recovering step is reached, and a step follows it. *)
Definition recovering_plan : ExecutionPlan :=
  plan_of [a_step; recovering_step; a_step].

(** The recovering step comes after a step that fails for good. *)
Definition blocked_plan : ExecutionPlan :=
  plan_of [failing_step; recovering_step].

Definition offline_world : SimWorld :=
  {| sim_time := 10000; sim_ws_up := false; sim_sent := []; sim_files := ∅;
     sim_log := []; sim_api_key := true; sim_streams := [] |}.

(** The registry of the examples: three functions of the real registry
    and a scripted [fail_technology_and_switch] that always switches. *)
Definition scripted_switch : Handler SimWorld := fun websocket args =>
  do on_session Registry._reset_execution_state then
  do on_session
       (fun s => set_requirements
                   (set_requirement "framework" (VStr "flask")
                      (set_requirement "language" (VStr "python") (requirements s))) s) then
  ret {[ "status" := VStr "technology_switched"; "new_language" := VStr "python";
         "new_framework" := VStr "flask"; "reason" := VStr "scripted" ]}.

Definition sim_functions : gmap string (Handler SimWorld) :=
  {[ "ask_user_preference" := Registry.ask_user_preference;
     "request_permission" := Registry.request_permission;
     "update_conversation_state" := Registry.update_conversation_state;
     "fail_technology_and_switch" := scripted_switch ]}.

Definition no_model_attribute : string -> bool := fun _ => false.

Definition with_streams (streams : list (list Chunk)) (w : SimWorld) : SimWorld :=
  {| sim_time := sim_time w; sim_ws_up := sim_ws_up w; sim_sent := sim_sent w;
     sim_files := sim_files w; sim_log := sim_log w; sim_api_key := sim_api_key w;
     sim_streams := streams |}.

Definition go_to (state : string) : Chunk :=
  FunctionCallChunk "update_conversation_state" {[ "new_state" := VStr state ]}.

(** One completion with six function calls. *)
Definition six_calls : list Chunk :=
  [ go_to "ASK_PROJECT_TYPE"; go_to "ASK_PROJECT_NAME_FOLDER";
    go_to "CHECK_SYSTEM_CAPABILITIES"; go_to "VALIDATE_INFO";
    go_to "SUMMARY_CONFIRMATION"; go_to "PLANNING"; FinishChunk "STOP" ].

Definition database_question : Dict :=
  {[ "type" := VStr "choice"; "field" := VStr "database";
     "options" := VList [VStr "sqlite"; VStr "postgresql"];
     "question" := VStr "Which database?"; "default" := VNone ]}.

(** A session waiting for the answer to the database question. *)
Definition asking_database : SessionState :=
  set_waiting_for_user true (set_pending_question (Some database_question) fresh).

(** A session waiting for the answer to a question that is neither a
    choice nor a permission request. *)
Definition free_text_question : Dict :=
  {[ "type" := VStr "text"; "question" := VStr "What should the app do?" ]}.

Definition asking_free_text : SessionState :=
  set_waiting_for_user true (set_pending_question (Some free_text_question) fresh).

Definition permission_question : Dict :=
  {[ "type" := VStr "permission"; "permission_type" := VStr "global";
     "scope" := VStr "system"; "reason" := VStr "read system information";
     "required" := VBool true; "question" := VStr "Grant global permission?" ]}.

Definition asking_permission : SessionState :=
  set_waiting_for_user true (set_pending_question (Some permission_question) fresh).

End Fixtures.

(* ===================================================================== *)
(** * Part II: theorems *)
(* ===================================================================== *)

Module PyStrFacts.
Import PyStr.

Lemma mem_In s l : mem s l = true <-> In s l.
Proof.
  unfold mem. rewrite existsb_exists. split.
  - intros [x [Hin Heq]]. apply String.eqb_eq in Heq. now subst.
  - intros Hin. exists s. split; [assumption | apply String.eqb_refl].
Qed.

Lemma all_space_split s : all_space s = true -> split s = [].
Proof.
  unfold split. induction s as [|c r IH]; simpl; [reflexivity|].
  intros H. apply andb_true_iff in H as [Hc Hr]. rewrite Hc. simpl. auto.
Qed.

Lemma split_go_cur_nonempty c cur s : split_go (String c cur) s <> [].
Proof.
  revert c cur. induction s as [|d r IH]; intros c cur; simpl; [discriminate|].
  destruct (is_space d); [discriminate | apply IH].
Qed.

Lemma split_nil_all_space s : split s = [] -> all_space s = true.
Proof.
  unfold split. induction s as [|c r IH]; simpl; [reflexivity|].
  destruct (is_space c) eqn:Hc; simpl.
  - exact IH.
  - intros H. exfalso. revert H. apply split_go_cur_nonempty.
Qed.

End PyStrFacts.

Section HoareRules.
Context {St : Type}.

Lemma hoare_ret {A} (P : St -> Prop) (a : A) (Q : A -> St -> Prop) E :
  (forall st, P st -> Q a st) -> hoare P (ret a) Q E.
Proof. intros H st Hst. simpl. auto. Qed.

Lemma hoare_raise {A} (P : St -> Prop) e (Q : A -> St -> Prop) (E : St -> Prop) :
  (forall st, P st -> E st) -> hoare P (raise e) Q E.
Proof. intros H st Hst. simpl. auto. Qed.

Lemma hoare_bind {A B} (P : St -> Prop) (m : M St A) (k : A -> M St B)
    (R : A -> St -> Prop) (Q : B -> St -> Prop) (E : St -> Prop) :
  hoare P m R E ->
  (forall a, hoare (R a) (k a) Q E) ->
  hoare P (bind m k) Q E.
Proof.
  intros Hm Hk st Hst. unfold bind. specialize (Hm st Hst).
  destruct (m st) as [[a|e] st']; [apply (Hk a st' Hm) | exact Hm].
Qed.

Lemma hoare_try {A} (P : St -> Prop) (m : M St A) (h : Exn -> M St A)
    (Q : A -> St -> Prop) (E E' : St -> Prop) :
  hoare P m Q E' ->
  (forall e, hoare E' (h e) Q E) ->
  hoare P (try_except m h) Q E.
Proof.
  intros Hm Hh st Hst. unfold try_except. specialize (Hm st Hst).
  destruct (m st) as [[a|e] st']; [exact Hm | apply (Hh e st' Hm)].
Qed.

Lemma hoare_conseq {A} (P P' : St -> Prop) (m : M St A)
    (Q Q' : A -> St -> Prop) (E E' : St -> Prop) :
  hoare P' m Q' E' ->
  (forall st, P st -> P' st) ->
  (forall a st, Q' a st -> Q a st) ->
  (forall st, E' st -> E st) ->
  hoare P m Q E.
Proof.
  intros Hm HP HQ HE st Hst. specialize (Hm st (HP st Hst)).
  destruct (m st) as [[a|e] st']; auto.
Qed.

Lemma hoare_modify (P : St -> Prop) (f : St -> St) (Q : unit -> St -> Prop) E :
  (forall st, P st -> Q tt (f st)) -> hoare P (modify f) Q E.
Proof. intros H st Hst. simpl. auto. Qed.

Lemma hoare_gets {A} (P : St -> Prop) (f : St -> A) (Q : A -> St -> Prop) E :
  (forall st, P st -> Q (f st) st) -> hoare P (gets f) Q E.
Proof. intros H st Hst. simpl. auto. Qed.

Lemma hoare_when (P : St -> Prop) (b : bool) (m : M St unit)
    (Q : unit -> St -> Prop) E :
  (b = true -> hoare P m Q E) ->
  (b = false -> forall st, P st -> Q tt st) ->
  hoare P (when b m) Q E.
Proof.
  intros Ht Hf. destruct b; simpl.
  - now apply Ht.
  - apply hoare_ret. now apply Hf.
Qed.
End HoareRules.
(* ===================================================================== *)
(** ** The conversation state machine *)
(* ===================================================================== *)

Module StateMachineProofs.
Import StateMachine.

Lemma update_state_current now st s : current_state (update_state now st s) = st.
Proof. reflexivity. Qed.

(** A transition that fires leads to the state it returns, and the state
    it comes from determines where it can lead. *)
Lemma auto_transition_target now s st' s' :
  auto_transition now s = (Some st', s') ->
  current_state s' = st' /\
  (st' = COMPLETED -> current_state s = VERIFYING) /\
  (st' = VERIFYING -> current_state s = EXECUTING).
Proof.
  unfold auto_transition, get_valid_transitions, transitions, flow_transitions,
    error_transitions, can_transition.
  destruct (current_state s) eqn:Hs; simpl;
    repeat match goal with
           | |- context [if ?b then _ else _] => destruct b; simpl
           | |- context [match ?o with Some _ => _ | None => _ end] =>
               destruct o; simpl
           end;
    intros Heq;
    first [ discriminate Heq
          | injection Heq as H1 H2; subst st' s'; simpl; repeat split; congruence ].
Qed.

Lemma transitions_have_no_action t : In t transitions -> action t = None.
Proof.
  intros Hin.
  assert (Hall : forallb (fun t => match action t with None => true | Some _ => false end)
                   transitions = true) by (vm_compute; reflexivity).
  rewrite forallb_forall in Hall. specialize (Hall t Hin).
  destruct (action t); [discriminate | reflexivity].
Qed.

(** [auto_transition] touches neither the pending question nor the
    waiting flag. *)
Lemma auto_transition_prompt now s :
  pending_question (snd (auto_transition now s)) = pending_question s /\
  waiting_for_user (snd (auto_transition now s)) = waiting_for_user s.
Proof.
  unfold auto_transition.
  destruct (get_valid_transitions s) as [|t l] eqn:Hv; [split; reflexivity|].
  assert (Hin : In t transitions).
  { assert (Ht : In t (get_valid_transitions s)) by (rewrite Hv; left; reflexivity).
    unfold get_valid_transitions in Ht. apply filter_In in Ht. tauto. }
  unfold execute. rewrite (transitions_have_no_action t Hin). split; reflexivity.
Qed.

Lemma reaches_history s0 visited s :
  reaches s0 visited s ->
  current_state s0 <> VERIFYING ->
  current_state s0 <> COMPLETED ->
  (current_state s = VERIFYING -> exists pre, visited = pre ++ [EXECUTING]) /\
  (current_state s = COMPLETED -> exists pre, visited = pre ++ [EXECUTING; VERIFYING]).
Proof.
  intros Hrun Hv Hc.
  induction Hrun as [| visited s1 now st' s2 Hrun IH Hfire
                     | visited s1 s2 Hrun IH Hsame].
  - split; intros Hs; congruence.
  - destruct (auto_transition_target _ _ _ _ Hfire) as (Hst & Hcomp & Hver).
    destruct IH as [IHv IHc]. split; intros Hs.
    + rewrite Hst in Hs. rewrite (Hver Hs). now exists visited.
    + rewrite Hst in Hs. specialize (Hcomp Hs).
      destruct (IHv Hcomp) as [pre ->]. exists pre.
      rewrite Hcomp, <- app_assoc. reflexivity.
  - rewrite Hsame. exact IH.
Qed.

(** A script that [play] accepts is a run of the step relation. *)
Lemma play_reaches s0 moves : forall visited s visited' s',
  reaches s0 visited s ->
  play moves visited s = Some (visited', s') ->
  reaches s0 visited' s'.
Proof.
  induction moves as [|m rest IH]; intros visited s visited' s' Hrun Hplay.
  - simpl in Hplay. inversion Hplay; subst. exact Hrun.
  - destruct m as [now | f]; simpl in Hplay.
    + destruct (auto_transition now s) as [[st'|] s2] eqn:Hauto; [|discriminate].
      eapply IH; [|exact Hplay]. eapply reaches_fire; eassumption.
    + destruct (state_eqb (current_state (f s)) (current_state s)) eqn:Heq;
        [|discriminate].
      eapply IH; [|exact Hplay]. eapply reaches_mutate; [eassumption|].
      unfold state_eqb in Heq. now apply bool_decide_eq_true in Heq.
Qed.

(** C7.  Under the step relation of [auto_transition] (transitions
    fire, and in between the rest of the program may change anything but
    the current state), a session that started in a state other than
    VERIFYING and COMPLETED, a fresh session in INIT for one, and that
    is now in COMPLETED has passed through EXECUTING and then VERIFYING:
    these are the last two states it left.  This holds for every
    session, so in particular for those holding a non-empty plan. *)
Theorem completed_only_after_executing_and_verifying s0 visited s :
  reaches s0 visited s ->
  current_state s0 <> VERIFYING ->
  current_state s0 <> COMPLETED ->
  current_state s = COMPLETED ->
  exists pre, visited = pre ++ [EXECUTING; VERIFYING].
Proof.
  intros Hrun Hv Hc Hs.
  destruct (reaches_history _ _ _ Hrun Hv Hc) as [_ H]. exact (H Hs).
Qed.

Lemma completed_only_after_executing_and_verifying_witness :
  current_state Fixtures.workflow_end = COMPLETED /\
  (exists p, execution_plan Fixtures.workflow_end = Some p /\ steps p <> []) /\
  exists pre, Fixtures.workflow_visited = pre ++ [EXECUTING; VERIFYING].
Proof.
  split; [reflexivity|]. split.
  - exists Fixtures.a_plan. split; [reflexivity | discriminate].
  - apply (completed_only_after_executing_and_verifying
             Fixtures.fresh Fixtures.workflow_visited Fixtures.workflow_end).
    + apply (play_reaches Fixtures.fresh Fixtures.full_workflow [] Fixtures.fresh).
      * apply reaches_start.
      * vm_compute. reflexivity.
    + discriminate.
    + discriminate.
    + reflexivity.
Defined.

(** C10.  In COMPLETED with no error message, the only transition whose
    guard holds is the unconditional one to ABORTED; [auto_transition]
    takes it, so COMPLETED is not a fixpoint of [auto_transition]. *)
Theorem completed_is_not_a_fixpoint now s :
  current_state s = COMPLETED ->
  error_message s = None ->
  get_valid_transitions s = [transition COMPLETED ABORTED None "User aborted"] /\
  auto_transition now s = (Some ABORTED, update_state now ABORTED s) /\
  current_state (snd (auto_transition now s)) = ABORTED.
Proof.
  intros Hs He.
  assert (Hvalid : get_valid_transitions s =
                   [transition COMPLETED ABORTED None "User aborted"]).
  { unfold get_valid_transitions, transitions, flow_transitions, error_transitions,
      can_transition. rewrite Hs. simpl. rewrite He. reflexivity. }
  unfold auto_transition. rewrite Hvalid. simpl. auto.
Qed.

Lemma completed_is_not_a_fixpoint_witness :
  current_state Fixtures.completed_session = COMPLETED /\
  error_message Fixtures.completed_session = None /\
  auto_transition 5 Fixtures.completed_session =
    (Some ABORTED, update_state 5 ABORTED Fixtures.completed_session).
Proof.
  split; [reflexivity|]. split; [reflexivity|].
  apply (completed_is_not_a_fixpoint 5 Fixtures.completed_session); reflexivity.
Defined.

End StateMachineProofs.

(* ===================================================================== *)
(** ** The session store *)
(* ===================================================================== *)

Module SessionManagerProofs.
Import SessionManager.

Section WithWorld.
Context {W : Type} `{Host W} `{Disk W}.
Variable ttl : Z.

Lemma expired_iff t s : _is_session_expired ttl t s = true <-> updated_at s + ttl < t.
Proof. unfold _is_session_expired. apply Z.ltb_lt. Qed.

(** A stored session that is still fresh is returned as it is. *)
Lemma load_live_session sid s w :
  fs_read w sid = Stored s ->
  now w <= updated_at s + ttl ->
  load_state ttl sid w = (Ok s, w).
Proof.
  intros Hread Hlive. unfold load_state, bind, gets. rewrite Hread.
  destruct (_is_session_expired ttl (now w) s) eqn:Hexp; [|reflexivity].
  apply expired_iff in Hexp. lia.
Qed.

(** C6.  Loading a stored session whose [updated_at] plus the inactivity
    TTL is earlier than now returns normally (nothing is raised, nothing
    is written) the stored session with its state set to ERROR and its
    error message set to "Session expired". *)
Theorem load_expired_session sid s w :
  fs_read w sid = Stored s ->
  updated_at s + ttl < now w ->
  exists s',
    load_state ttl sid w = (Ok s', w) /\
    s' = set_error_message (Some "Session expired") (set_current_state ERROR s) /\
    current_state s' = ERROR /\
    error_message s' = Some "Session expired".
Proof.
  intros Hread Hold.
  exists (set_error_message (Some "Session expired") (set_current_state ERROR s)).
  split; [|auto].
  unfold load_state, bind, gets. rewrite Hread.
  apply expired_iff in Hold. rewrite Hold. reflexivity.
Qed.

End WithWorld.

Lemma load_expired_session_witness :
  fs_read Fixtures.stale_world "s1" = Stored Fixtures.fresh /\
  updated_at Fixtures.fresh + 3600 < now Fixtures.stale_world /\
  exists s',
    load_state 3600 "s1" Fixtures.stale_world = (Ok s', Fixtures.stale_world) /\
    s' = set_error_message (Some "Session expired")
           (set_current_state ERROR Fixtures.fresh) /\
    current_state s' = ERROR /\
    error_message s' = Some "Session expired".
Proof.
  split; [reflexivity|]. split; [reflexivity|].
  apply (load_expired_session 3600 "s1" Fixtures.fresh Fixtures.stale_world);
    reflexivity.
Defined.

End SessionManagerProofs.

(* ===================================================================== *)
(** ** The command execution engine *)
(* ===================================================================== *)

Module EngineProofs.
Import Engine.

Section WithWorld.
Context {W : Type} `{Host W} `{Channel W} `{Shell W}.

Lemma send_quiet websocket ev w :
  channel_ok websocket -> exists w', send websocket ev w = (Ok tt, w').
Proof.
  intros [-> | Hrel]; simpl.
  - now exists w.
  - destruct websocket; simpl; [apply Hrel | now exists w].
Qed.

Lemma stream_lines_quiet websocket idx stream lines : forall w,
  channel_ok websocket ->
  exists w', stream_lines websocket idx stream lines w = (Ok tt, w').
Proof.
  induction lines as [|l rest IH]; intros w Hok; simpl.
  - now exists w.
  - unfold bind. destruct (send_quiet websocket (output_event idx stream l) w Hok)
      as [w1 ->]. apply IH, Hok.
Qed.

Lemma complete_step_quiet step idx websocket start out err code w :
  channel_ok websocket ->
  exists dur w',
    complete_step step idx websocket start out err code w =
    (Ok (make_result idx (command step) (code =? 0) (PyStr.join PyStr.newline out)
           (PyStr.join PyStr.newline err) code dur start), w').
Proof.
  intros Hok. unfold complete_step, bind, gets.
  match goal with
  | |- context [send websocket ?ev w] =>
      destruct (send_quiet websocket ev w Hok) as [w1 ->]
  end.
  eexists _, w1. reflexivity.
Qed.

(** What the [try] block of [execute_step] comes to. *)
Inductive step_attempt (step : ExecutionStep) (w : W) : Res ExecutionResult -> Prop :=
| attempt_empty e :
    PyStr.split (command step) = [] ->
    step_attempt step w (Raise e)
| attempt_no_directory e0 e w' :
    run_process (PyStr.split (command step)) (step_cwd step) (timeout step) w
      = (ProcMkdirError e0, w') ->
    step_attempt step w (Raise e)
| attempt_no_process e0 e w' :
    run_process (PyStr.split (command step)) (step_cwd step) (timeout step) w
      = (ProcSpawnError e0, w') ->
    step_attempt step w (Raise e)
| attempt_exited out err code w' r :
    PyStr.split (command step) <> [] ->
    run_process (PyStr.split (command step)) (step_cwd step) (timeout step) w
      = (ProcExited out err code, w') ->
    success r = (code =? 0) -> exit_code r = code ->
    step_attempt step w (Ok r)
| attempt_timed_out out err w' r :
    PyStr.split (command step) <> [] ->
    run_process (PyStr.split (command step)) (step_cwd step) (timeout step) w
      = (ProcTimedOut out err, w') ->
    success r = false -> exit_code r = 1 ->
    step_attempt step w (Ok r).

Lemma run_step_attempt step idx websocket start w :
  channel_ok websocket ->
  step_attempt step w (fst (run_step step idx websocket start w)) /\
  match fst (run_step step idx websocket start w) with
  | Ok r => step_index r = idx /\ res_command r = command step /\
            fallback_used r = false
  | Raise _ => True
  end.
Proof.
  intros Hok. unfold run_step.
  destruct (PyStr.split (command step)) as [|p ps] eqn:Hsplit.
  { simpl. split; [now apply attempt_empty | exact I]. }
  unfold bind, spawn.
  destruct (run_process (p :: ps) (step_cwd step) (timeout step) w) as [o w1] eqn:Hrun.
  destruct o as [e | e | out err code | out err]; simpl.
  - split; [|exact I]. eapply attempt_no_directory. rewrite Hsplit. exact Hrun.
  - split; [|exact I]. eapply attempt_no_process. rewrite Hsplit. exact Hrun.
  - destruct (stream_lines_quiet websocket idx "stdout" out w1 Hok) as [w2 ->].
    destruct (stream_lines_quiet websocket idx "stderr" err w2 Hok) as [w3 ->].
    destruct (complete_step_quiet step idx websocket start out err code w3 Hok)
      as (dur & w4 & ->). simpl. split; [|auto].
    eapply attempt_exited; [rewrite Hsplit; discriminate | rewrite Hsplit; exact Hrun
                           | reflexivity | reflexivity].
  - destruct (stream_lines_quiet websocket idx "stdout" out w1 Hok) as [w2 ->].
    destruct (stream_lines_quiet websocket idx "stderr" err w2 Hok) as [w3 ->].
    match goal with
    | |- context [complete_step step idx websocket start out ?e 1 w3] =>
        destruct (complete_step_quiet step idx websocket start out e 1 w3 Hok)
          as (dur & w4 & ->)
    end.
    simpl. split; [|auto].
    eapply attempt_timed_out; [rewrite Hsplit; discriminate | rewrite Hsplit; exact Hrun
                              | reflexivity | reflexivity].
Qed.

(** With no websocket, or with one that delivers, [execute_step] returns
    a result for every step and every world: an error inside the [try]
    block comes back as a failed result with exit code 1, and the
    success flag says whether the exit code is 0. *)
Lemma execute_step_returns step idx websocket w :
  channel_ok websocket ->
  exists r w',
    execute_step step idx websocket w = (Ok r, w') /\
    step_index r = idx /\ res_command r = command step /\
    fallback_used r = false /\
    (success r = true <-> exit_code r = 0) /\
    match fst (run_step step idx websocket (now w) w) with
    | Ok r0 => r = r0
    | Raise e => success r = false /\ exit_code r = 1 /\ stderr r = e
    end.
Proof.
  intros Hok. unfold execute_step, bind, gets, try_except.
  destruct (run_step_attempt step idx websocket (now w) w Hok) as [Hatt Hshape].
  destruct (run_step step idx websocket (now w) w) as [[r | e] w1] eqn:Hrun;
    simpl in Hatt, Hshape.
  - exists r, w1. destruct Hshape as (Hi & Hc & Hf).
    repeat split; try assumption.
    + intros Hs.
      inversion Hatt as [| | | ? ? code ? ? _ _ Hsucc Hcode | ? ? ? ? _ _ Hsucc Hcode].
      * rewrite Hsucc in Hs. apply Z.eqb_eq in Hs. congruence.
      * congruence.
    + intros Hz.
      inversion Hatt as [| | | ? ? code ? ? _ _ Hsucc Hcode | ? ? ? ? _ _ Hsucc Hcode].
      * rewrite Hsucc. apply Z.eqb_eq. congruence.
      * congruence.
  - match goal with
    | |- context [send websocket ?ev w1] =>
        destruct (send_quiet websocket ev w1 Hok) as [w2 ->]
    end.
    eexists _, w2. split; [reflexivity|]. simpl.
    repeat split; try reflexivity; intros; discriminate.
Qed.

Lemma execute_step_of_failing step idx websocket w :
  channel_ok websocket ->
  always_fails step ->
  exists r w',
    execute_step step idx websocket w = (Ok r, w') /\
    success r = false /\ step_index r = idx /\ fallback_used r = false /\
    res_command r = command step.
Proof.
  intros Hok Hfail.
  destruct (execute_step_returns step idx websocket w Hok)
    as (r & w' & Hrun & Hi & Hc & Hf & _ & Hcase).
  exists r, w'. repeat split; try assumption.
  destruct (run_step_attempt step idx websocket (now w) w Hok) as [Hatt _].
  destruct (fst (run_step step idx websocket (now w) w)) as [r0 | e].
  - subst r0.
    inversion Hatt as [| | | out err code w1 ? _ Hproc Hsucc Hcode
                         | ? ? ? ? _ _ Hsucc Hcode]; [|assumption].
    rewrite Hsucc. apply Z.eqb_neq. intros Hz.
    apply (Hfail w out err). rewrite Hproc. simpl. now rewrite Hz.
  - tauto.
Qed.

Lemma execute_step_of_succeeding step idx websocket w :
  channel_ok websocket ->
  always_succeeds step ->
  exists r w',
    execute_step step idx websocket w = (Ok r, w') /\
    success r = true /\ exit_code r = 0 /\ step_index r = idx /\
    fallback_used r = false /\ res_command r = command step.
Proof.
  intros Hok [Hne Hgood].
  destruct (execute_step_returns step idx websocket w Hok)
    as (r & w' & Hrun & Hi & Hc & Hf & Hiff & Hcase).
  exists r, w'.
  assert (Hcode : exit_code r = 0).
  { destruct (run_step_attempt step idx websocket (now w) w Hok) as [Hatt _].
    destruct (Hgood w) as (out & err & Hproc).
    destruct (fst (run_step step idx websocket (now w) w)) as [r0 | e].
    - subst r0.
      inversion Hatt as [| | | out' err' code w1 ? _ Hproc' _ Hcode
                           | out' err' w1 ? _ Hproc' _ _];
        rewrite Hproc' in Hproc; simpl in Hproc; congruence.
    - inversion Hatt as [? Hsplit | ? ? w1 Hproc' | ? ? w1 Hproc' | |];
        [congruence | | ]; rewrite Hproc' in Hproc; simpl in Hproc; discriminate. }
  repeat split; try assumption. now apply Hiff.
Qed.

(** With no websocket, or with one that delivers, the loop of
    [execute_plan] ends normally; it only adds results, and when there
    is a step to run its result is among them. *)
Lemma plan_loop_returns total websocket todo : forall i rs w,
  channel_ok websocket ->
  exists e ext w',
    plan_loop total websocket todo i rs w = (Ok (e, rs ++ ext), w') /\
    match todo with
    | next :: _ => exists r, In r ext /\ step_index r = i /\
                             res_command r = command next
    | [] => True
    end.
Proof.
  induction todo as [|step rest IH]; intros i rs w Hok.
  - exists Exhausted, [], w. simpl. rewrite app_nil_r. auto.
  - cbn [plan_loop]. unfold bind at 1.
    match goal with
    | |- context [send websocket ?ev w] =>
        destruct (send_quiet websocket ev w Hok) as [w1 ->]
    end.
    unfold bind at 1.
    destruct (execute_step_returns step i websocket w1 Hok)
      as (r & w2 & -> & Hi & Hc & _).
    unfold bind at 1, _log_execution_result, modify.
    destruct (success r).
    + destruct (IH (i + 1) (rs ++ [r]) (append_log r w2) Hok)
        as (e & ext & w3 & -> & _).
      exists e, (r :: ext), w3. rewrite <- app_assoc. split; [reflexivity|].
      exists r. simpl. auto.
    + destruct (has_fallback step) as [fb|].
      * unfold bind at 1.
        destruct (execute_step_returns (fallback_step_of step fb) i websocket
                    (append_log r w2) Hok) as (r2 & w3 & -> & _).
        unfold bind at 1.
        destruct (success (set_fallback_used true r2)).
        -- destruct (IH (i + 1) ((rs ++ [r]) ++ [set_fallback_used true r2])
                       (append_log (set_fallback_used true r2) w3) Hok)
             as (e & ext & w4 & -> & _).
           exists e, (r :: set_fallback_used true r2 :: ext), w4.
           rewrite <- !app_assoc. split; [reflexivity|].
           exists r. simpl. auto.
        -- eexists Broke, [r; set_fallback_used true r2], _.
           rewrite <- !app_assoc. split; [reflexivity|].
           exists r. simpl. auto.
      * unfold bind at 1.
        match goal with
        | |- context [send websocket ?ev ?w0] =>
            destruct (send_quiet websocket ev w0 Hok) as [w3 ->]
        end.
        exists Broke, [r], w3. split; [reflexivity|].
        exists r. simpl. auto.
Qed.

(** When the steps [pre] are all visited, the loop goes on with what
    follows them. *)
Lemma plan_loop_app total websocket pre rest : forall i rs w rs1 w1,
  plan_loop total websocket pre i rs w = (Ok (Exhausted, rs1), w1) ->
  plan_loop total websocket (pre ++ rest) i rs w =
  plan_loop total websocket rest (i + Z.of_nat (length pre)) rs1 w1.
Proof.
  induction pre as [|step pre IH]; intros i rs w rs1 w1 Hpre.
  - simpl in Hpre. inversion Hpre; subst. simpl. now rewrite Z.add_0_r.
  - replace (i + Z.of_nat (length (step :: pre)))
      with ((i + 1) + Z.of_nat (length pre)) by (simpl length; lia).
    cbn [plan_loop app] in *. unfold bind at 1. unfold bind at 1 in Hpre.
    destruct (send websocket _ w) as [[[]|e0] w2]; [|discriminate].
    unfold bind at 1. unfold bind at 1 in Hpre.
    destruct (execute_step step i websocket w2) as [[r|e0] w3]; [|discriminate].
    unfold bind at 1. unfold bind at 1 in Hpre.
    destruct (_log_execution_result r w3) as [[[]|e0] w4]; [|discriminate].
    destruct (success r).
    + now apply IH.
    + destruct (has_fallback step) as [fb|].
      * unfold bind at 1. unfold bind at 1 in Hpre.
        destruct (execute_step (fallback_step_of step fb) i websocket w4)
          as [[r2|e0] w5]; [|discriminate].
        unfold bind at 1. unfold bind at 1 in Hpre.
        destruct (_log_execution_result (set_fallback_used true r2) w5)
          as [[[]|e0] w6]; [|discriminate].
        destruct (success (set_fallback_used true r2)); [now apply IH | discriminate].
      * unfold bind at 1 in Hpre.
        destruct (send websocket _ w4) as [[[]|e0] w5]; discriminate.
Qed.

(** The step itself: the primary command fails, the fallback succeeds,
    both attempts are recorded and the loop goes on. *)
Lemma plan_loop_recovers total websocket step fb post i rs w :
  channel_ok websocket ->
  has_fallback step = Some fb ->
  always_fails step ->
  always_succeeds (fallback_step_of step fb) ->
  exists r1 r2 w',
    success r1 = false /\ step_index r1 = i /\ fallback_used r1 = false /\
    success r2 = true /\ step_index r2 = i /\ fallback_used r2 = true /\
    res_command r2 = fb /\
    plan_loop total websocket (step :: post) i rs w =
    plan_loop total websocket post (i + 1) (rs ++ [r1; r2]) w'.
Proof.
  intros Hok Hfb Hfail Hgood.
  cbn [plan_loop]. unfold bind at 1.
  match goal with
  | |- context [send websocket ?ev w] =>
      destruct (send_quiet websocket ev w Hok) as [w1 ->]
  end.
  unfold bind at 1.
  destruct (execute_step_of_failing step i websocket w1 Hok Hfail)
    as (r1 & w2 & -> & Hs1 & Hi1 & Hf1 & _).
  unfold bind at 1, _log_execution_result, modify.
  rewrite Hs1, Hfb. unfold bind at 1.
  destruct (execute_step_of_succeeding (fallback_step_of step fb) i websocket
              (append_log r1 w2) Hok Hgood)
    as (r2 & w3 & -> & Hs2 & _ & Hi2 & _ & Hc2).
  unfold bind at 1. cbn [success set_fallback_used]. rewrite Hs2.
  exists r1, (set_fallback_used true r2), (append_log (set_fallback_used true r2) w3).
  rewrite <- app_assoc. repeat split; auto.
Qed.

(** C8, as the code has it.  Take a plan in which a step whose primary
    command always fails carries a fallback command that always
    succeeds.  If execution reaches that step (the loop over the earlier
    steps is not left by [break]) and the websocket, if there is one,
    delivers, then [execute_plan] returns normally, its results hold a
    successful result for that step with [fallback_used = true], and the
    step after it, if any, is run as well. *)
Theorem fallback_recovers_reached_step websocket plan pre step fb post w rs1 w1 :
  steps plan = pre ++ step :: post ->
  channel_ok websocket ->
  has_fallback step = Some fb ->
  always_fails step ->
  always_succeeds (fallback_step_of step fb) ->
  plan_loop (Z.of_nat (length (steps plan))) websocket pre 0 [] w
    = (Ok (Exhausted, rs1), w1) ->
  exists results w' r,
    execute_plan plan websocket w = (Ok results, w') /\
    In r results /\
    step_index r = Z.of_nat (length pre) /\
    res_command r = fb /\
    success r = true /\
    fallback_used r = true /\
    match post with
    | next :: _ =>
        exists r', In r' results /\
                   step_index r' = Z.of_nat (length pre) + 1 /\
                   res_command r' = command next
    | [] => True
    end.
Proof.
  intros Hsteps Hok Hfb Hfail Hgood Hpre.
  unfold execute_plan, bind. rewrite Hsteps in *.
  rewrite (plan_loop_app _ _ pre (step :: post) _ _ _ _ _ Hpre).
  destruct (plan_loop_recovers (Z.of_nat (length (pre ++ step :: post))) websocket
              step fb post (0 + Z.of_nat (length pre)) rs1 w1 Hok Hfb Hfail Hgood)
    as (r1 & r2 & w2 & _ & _ & _ & Hs2 & Hi2 & Hf2 & Hc2 & ->).
  destruct (plan_loop_returns (Z.of_nat (length (pre ++ step :: post))) websocket post
              (0 + Z.of_nat (length pre) + 1) (rs1 ++ [r1; r2]) w2 Hok)
    as (e & ext & w3 & -> & Hnext).
  exists ((rs1 ++ [r1; r2]) ++ ext), w3, r2. cbn [snd].
  split; [reflexivity|].
  split; [rewrite !in_app_iff; simpl; tauto|].
  rewrite Z.add_0_l in Hi2.
  repeat split; try assumption.
  destruct post as [|next rest]; [exact I|].
  destruct Hnext as (r' & Hin & Hi & Hc). exists r'.
  split; [rewrite in_app_iff; tauto|]. split; [lia | assumption].
Qed.

End WithWorld.

(** In the scripted world the program [false] always fails and the
    program [true] always succeeds. *)
Lemma recovering_step_primary_fails : always_fails Fixtures.recovering_step.
Proof.
  intros w out err. unfold Fixtures.recovering_step. simpl command.
  replace (PyStr.split "false --primary") with ["false"; "--primary"]
    by (vm_compute; reflexivity).
  simpl. intros Heq. inversion Heq.
Qed.

Lemma recovering_step_fallback_succeeds :
  always_succeeds (fallback_step_of Fixtures.recovering_step "true --fallback").
Proof.
  split; [vm_compute; discriminate|].
  intros w. exists ["ok"], [].
  unfold fallback_step_of, make_step, Fixtures.recovering_step. simpl command.
  replace (PyStr.split "true --fallback") with ["true"; "--fallback"]
    by (vm_compute; reflexivity).
  reflexivity.
Qed.

Lemma fallback_recovers_reached_step_witness :
  exists results w' r,
    execute_plan Fixtures.recovering_plan false Fixtures.quiet_world
      = (Ok results, w') /\
    In r results /\
    step_index r = 1 /\
    res_command r = "true --fallback" /\
    success r = true /\
    fallback_used r = true /\
    exists r', In r' results /\ step_index r' = 2 /\ res_command r' = "mkdir todo".
Proof.
  eapply (fallback_recovers_reached_step false Fixtures.recovering_plan
            [Fixtures.a_step] Fixtures.recovering_step "true --fallback"
            [Fixtures.a_step] Fixtures.quiet_world).
  - reflexivity.
  - left. reflexivity.
  - reflexivity.
  - exact recovering_step_primary_fails.
  - exact recovering_step_fallback_succeeds.
  - vm_compute. reflexivity.
Defined.

(** C8 as it is worded fails: a plan may contain such a step without
    [execute_plan] ever running it.  Here the step comes second, the
    first step fails without a fallback, and the loop is left by
    [break]: the only result is the failure of the first step. *)
Lemma fallback_step_behind_failure :
  In Fixtures.recovering_step (steps Fixtures.blocked_plan) /\
  has_fallback Fixtures.recovering_step = Some "true --fallback" /\
  always_fails Fixtures.recovering_step /\
  always_succeeds (fallback_step_of Fixtures.recovering_step "true --fallback") /\
  exists r0 w',
    execute_plan Fixtures.blocked_plan false Fixtures.quiet_world = (Ok [r0], w') /\
    step_index r0 = 0 /\ success r0 = false /\ fallback_used r0 = false /\
    ~ (exists r, In r [r0] /\ success r = true /\ fallback_used r = true).
Proof.
  split; [simpl; auto|]. split; [reflexivity|].
  split; [exact recovering_step_primary_fails|].
  split; [exact recovering_step_fallback_succeeds|].
  eexists _, _. split; [vm_compute; reflexivity|].
  split; [reflexivity|]. split; [reflexivity|]. split; [reflexivity|].
  intros (r & [<- | []] & Hs & _). discriminate.
Qed.

(** C9 at a websocket that is closed.  The first notification raises
    inside the [try] block, the [except] block builds the failed result
    and then notifies in turn, outside of any [try]: [execute_step]
    raises instead of returning its result. *)
Theorem execute_step_raises_on_closed_websocket :
  Fixtures.sim_ws_up Fixtures.offline_world = false /\
  execute_step Fixtures.a_step 0 true Fixtures.offline_world
    = (Raise "WebSocket is not connected", Fixtures.offline_world) /\
  exists r w',
    execute_step Fixtures.a_step 0 false Fixtures.offline_world = (Ok r, w') /\
    success r = true /\ exit_code r = 0.
Proof.
  split; [reflexivity|]. split; [vm_compute; reflexivity|].
  eexists _, _. split; [vm_compute; reflexivity|]. split; reflexivity.
Qed.

End EngineProofs.

(* ===================================================================== *)
(** ** The function registry *)
(* ===================================================================== *)

Module RegistryProofs.
Import Registry.

Lemma status_of_failed e : status_of (failed_result e) = VStr "failed".
Proof. reflexivity. Qed.

Lemma status_of_blocked err s :
  status_of (blocked_result err s) = VStr "blocked_by_state_machine".
Proof. reflexivity. Qed.

(** Only INIT has a block-list, and it is part of the five functions
    listed in [_validate_function_for_state]. *)
Lemma validate_blocks_only_in_init name s err :
  _validate_function_for_state name s = Some err ->
  current_state s = INIT /\ PyStr.mem name init_blocked_functions = true.
Proof.
  unfold _validate_function_for_state, state_restrictions.
  destruct (current_state s); try discriminate.
  destruct (requirements_set s).
  - simpl. unfold PyStr.mem. simpl.
    destruct (String.eqb name "generate_file_content") eqn:E1.
    + intros _. split; [reflexivity|]. rewrite orb_true_r. reflexivity.
    + destruct (String.eqb name "validate_requirements_against_capabilities") eqn:E2;
        [|discriminate].
      intros _. split; [reflexivity|]. rewrite !orb_true_r. reflexivity.
  - destruct (PyStr.mem name init_blocked_functions) eqn:E; [auto | discriminate].
Qed.

Section WithWorld.
Context {W : Type} `{Host W} `{Channel W} `{Reasoner W}.
Variable functions : gmap string (Handler W).

Lemma notify_quiet websocket ev (r : Run W) :
  channel_ok websocket ->
  exists w', notify websocket ev r = (Ok tt, mkRun (sess r) w').
Proof.
  intros Hok. unfold notify, lift.
  destruct (EngineProofs.send_quiet websocket ev (world r) Hok) as [w' ->].
  now exists w'.
Qed.

(** A send, delivered or not, leaves the session alone. *)
Lemma notify_session websocket ev (r : Run W) :
  sess (snd (notify websocket ev r)) = sess r.
Proof.
  unfold notify, lift. destruct (send websocket ev (world r)); reflexivity.
Qed.

(** The pre-dispatch recovery check never raises, and when it reports
    an intervention the session has left INIT. *)
Lemma handle_missing_returns name websocket r :
  exists auto r',
    _handle_missing_requirements functions name websocket r = (Ok auto, r') /\
    (auto = true -> current_state (sess r') <> INIT).
Proof.
  unfold _handle_missing_requirements, bind at 1, session, gets.
  destruct (negb (state_eqb (current_state (sess r)) INIT));
    [eexists _, _; split; [reflexivity | discriminate]|].
  destruct (negb (PyStr.mem name project_creation_functions));
    [eexists _, _; split; [reflexivity | discriminate]|].
  destruct (requirements_set (sess r));
    [eexists _, _; split; [reflexivity | discriminate]|].
  unfold try_except, bind at 1.
  destruct (_extract_requirements_from_conversation r) as [[extracted | e] r1];
    [|eexists _, _; split; [reflexivity | discriminate]].
  destruct (negb (dict_truthy extracted));
    [eexists _, _; split; [reflexivity | discriminate]|].
  destruct (functions !! "update_project_requirements") as [update_func|];
    [|eexists _, _; split; [reflexivity | discriminate]].
  unfold bind at 1.
  destruct (update_func websocket extracted r1) as [[result | e] r2];
    [|eexists _, _; split; [reflexivity | discriminate]].
  unfold bind, gets, when, on_session, modify, ret.
  destruct (state_eqb (current_state (sess r2)) INIT) eqn:Hst.
  - eexists _, _. split; [reflexivity|]. intros _. simpl. discriminate.
  - eexists _, _. split; [reflexivity|]. intros _. simpl.
    unfold state_eqb in Hst. now apply bool_decide_eq_false in Hst.
Qed.

(** C2, as the code has it.  The state machine gate is a block-list,
    not an allow-list, and it is consulted after the pre-dispatch
    recovery check.  For a registered function, when the start
    notification is delivered: if [_validate_function_for_state] blocks
    the function in the session the recovery check leaves behind, then
    [execute] returns a result with status [blocked_by_state_machine]
    and ends in that very state: the handler is not run, nothing is
    appended to [function_results], and the recovery check had not
    intervened.  This can only happen in INIT and for the functions of
    its block-list. *)
Theorem blocked_function_is_rejected call websocket func r err :
  let r1 := snd (notify websocket (start_event call) r) in
  let out := _handle_missing_requirements functions (fc_name call) websocket r1 in
  functions !! fc_name call = Some func ->
  channel_ok websocket ->
  _validate_function_for_state (fc_name call) (sess (snd out)) = Some err ->
  execute functions call websocket r = (Ok (blocked_result err (sess (snd out))), snd out) /\
  status_of (blocked_result err (sess (snd out))) = VStr "blocked_by_state_machine" /\
  sess r1 = sess r /\
  fst out = Ok false /\
  current_state (sess (snd out)) = INIT /\
  PyStr.mem (fc_name call) init_blocked_functions = true.
Proof.
  intros r1 out Hfunc Hok Hval.
  destruct (notify_quiet websocket (start_event call) r Hok) as [w1 Hstart].
  assert (Hr1 : r1 = mkRun (sess r) w1) by (unfold r1; now rewrite Hstart).
  destruct (handle_missing_returns (fc_name call) websocket r1)
    as (auto & r2 & Hmiss & Hauto).
  assert (Hout : out = (Ok auto, r2)) by exact Hmiss.
  rewrite Hout in *. simpl fst in *. simpl snd in *.
  destruct (validate_blocks_only_in_init _ _ _ Hval) as [Hinit Hmem].
  assert (Hfalse : auto = false).
  { destruct auto; [|reflexivity]. exfalso. now apply Hauto. }
  subst auto.
  split; [|rewrite Hr1; auto].
  unfold execute. cbv zeta.
  match goal with
  | |- context [match ?l with Some _ => _ | None => _ end] =>
      replace l with (Some func) by (symmetry; exact Hfunc)
  end.
  unfold bind at 1. rewrite Hstart.
  unfold try_except, bind at 1. rewrite <- Hr1, Hmiss.
  unfold bind at 1, when, ret, bind at 1, session, gets. simpl sess.
  rewrite Hval. reflexivity.
Qed.

(** Outside INIT nothing is ever blocked. *)
Lemma nothing_blocked_outside_init name s :
  current_state s <> INIT -> _validate_function_for_state name s = None.
Proof.
  intros Hst. destruct (_validate_function_for_state name s) as [err|] eqn:Hval;
    [|reflexivity].
  apply validate_blocks_only_in_init in Hval. tauto.
Qed.

End WithWorld.

(** In the fresh session nothing can be extracted from the (empty)
    conversation, and [fail_technology_and_switch] is blocked. *)
Lemma blocked_function_is_rejected_witness :
  exists err,
    _validate_function_for_state "fail_technology_and_switch" Fixtures.fresh = Some err /\
    execute Fixtures.sim_functions
      {| fc_name := "fail_technology_and_switch"; fc_arguments := ∅ |} false
      (mkRun Fixtures.fresh Fixtures.quiet_world)
    = (Ok (blocked_result err Fixtures.fresh), mkRun Fixtures.fresh Fixtures.quiet_world).
Proof.
  eexists. split; [reflexivity|].
  apply (blocked_function_is_rejected Fixtures.sim_functions
           {| fc_name := "fail_technology_and_switch"; fc_arguments := ∅ |} false
           Fixtures.scripted_switch (mkRun Fixtures.fresh Fixtures.quiet_world)).
  - reflexivity.
  - left. reflexivity.
  - reflexivity.
Defined.

(** C2 as it is worded fails: [ask_user_preference] is on neither
    allow-list of INIT, yet in INIT [execute] runs its handler, which
    stores the question and raises the waiting flag, and returns the
    handler's status. *)
Lemma unlisted_function_runs_in_init :
  let call := {| fc_name := "ask_user_preference";
                 fc_arguments := {[ "field" := VStr "database";
                                    "options" := VList [VStr "sqlite"; VStr "postgresql"];
                                    "question" := VStr "Which database?" ]} |} in
  let out := execute Fixtures.sim_functions call false
               (mkRun Fixtures.fresh Fixtures.quiet_world) in
  current_state Fixtures.fresh = INIT /\
  PyStr.mem "ask_user_preference" (_get_allowed_functions_for_state INIT) = false /\
  PyStr.mem "ask_user_preference" init_allowed_functions = false /\
  (exists result, fst out = Ok result /\ status_of result = VStr "waiting_for_user") /\
  pending_question (sess (snd out)) = Some Fixtures.database_question /\
  waiting_for_user (sess (snd out)) = true /\
  length (function_results (sess (snd out))) = 1%nat.
Proof.
  cbv zeta.
  split; [reflexivity|]. split; [reflexivity|]. split; [reflexivity|].
  split; [eexists; split; vm_compute; reflexivity|].
  split; [vm_compute; reflexivity|].
  split; vm_compute; reflexivity.
Qed.

End RegistryProofs.

(* ===================================================================== *)
(** ** The orchestrator *)
(* ===================================================================== *)

Module AgentProofs.
Import Registry Agent.

Lemma dict_truthy_lookup (d : Dict) k v : d !! k = Some v -> dict_truthy d = true.
Proof.
  intros Hk. unfold dict_truthy.
  destruct (map_to_list d) eqn:Hl; [|reflexivity].
  apply map_to_list_empty_iff in Hl. subst d. now rewrite lookup_empty in Hk.
Qed.

Lemma typed_question_truthy (q : Dict) ty :
  is_str (dict_get q "type") ty = true -> dict_truthy q = true.
Proof.
  unfold dict_get. destruct (q !! "type") as [v|] eqn:Hq; [|discriminate].
  intros _. eapply dict_truthy_lookup. exact Hq.
Qed.

(** What the two appends per executed function come to once the list
    holds ten entries: the registry appends, the agent appends and pops
    once, and the list is one entry longer than before. *)
Lemma two_appends_one_pop e1 e2 s :
  (10 <= length (function_results s))%nat ->
  length (function_results
            (store_result e2
               (set_function_results (function_results s ++ [e1]) s)))
  = S (length (function_results s)).
Proof.
  intros Hlen. unfold store_result. simpl function_results.
  destruct (function_results s) as [|e0 l]; [simpl in Hlen; lia|].
  simpl length in *.
  destruct (10 <? Z.of_nat (S (length ((l ++ [e1]) ++ [e2])))) eqn:Hcmp;
    simpl function_results.
  - simpl. rewrite !length_app. simpl. lia.
  - apply Z.ltb_ge in Hcmp. rewrite !length_app in Hcmp. simpl in Hcmp. lia.
Qed.

Lemma add_message_pending t role_ text s :
  pending_question (add_message t role_ text s) = pending_question s.
Proof. reflexivity. Qed.

Lemma add_message_waiting t role_ text s :
  waiting_for_user (add_message t role_ text s) = waiting_for_user s.
Proof. reflexivity. Qed.

Section WithWorld.
Context {W : Type} `{Host W} `{Channel W} `{Disk W} `{Reasoner W}.
Variable functions : gmap string (Handler W).
Variable model_attribute : string -> bool.

(** C3, as the code has it.  When the pending question is a choice and
    the answer matches none of its options, [_handle_user_response]
    appends the re-prompt to the conversation and changes nothing else:
    the requirements, the question and the waiting flag are as they
    were.  The turn does not stop there: [process_conversation] goes on
    to [_process_with_gemini] with that session (given that the
    websocket, if any, delivers the [choice_invalid] event). *)
Theorem unmatched_choice_reprompts_and_goes_on depth user_input websocket r q opts :
  channel_ok websocket ->
  pending_question (sess r) = Some q ->
  is_str (dict_get q "type") "choice" = true ->
  py_iter (match q !! "options" with Some v => v | None => VList [] end) = Some opts ->
  find_option (PyStr.strip (PyStr.lower user_input)) opts = Ok None ->
  let t := now (world r) in
  let s1 := add_message t "assistant" (reprompt user_input opts)
              (add_message t "user" user_input (sess r)) in
  exists w1,
    _handle_user_response functions model_attribute user_input websocket
      (mkRun (add_message t "user" user_input (sess r)) (world r))
      = (Ok false, mkRun s1 w1) /\
    requirements s1 = requirements (sess r) /\
    pending_question s1 = Some q /\
    waiting_for_user s1 = waiting_for_user (sess r) /\
    current_state s1 = current_state (sess r) /\
    process_conversation functions model_attribute depth user_input websocket r
      = try_except (_process_with_gemini functions depth websocket)
          (turn_failed websocket) (mkRun s1 w1).
Proof.
  intros Hok Hq Hty Hiter Hfind t s1.
  assert (Htruthy : dict_truthy q = true) by (eapply typed_question_truthy; eassumption).
  destruct (RegistryProofs.notify_quiet websocket
              {| ev_type := "choice_invalid";
                 ev_data := [("user_input", VStr user_input);
                             ("valid_options",
                              match q !! "options" with Some v => v | None => VList [] end)] |}
              (mkRun s1 (world r)) Hok) as [w1 Hsend].
  exists w1.
  assert (Hresp : _handle_user_response functions model_attribute user_input websocket
                    (mkRun (add_message t "user" user_input (sess r)) (world r))
                  = (Ok false, mkRun s1 w1)).
  { unfold _handle_user_response, bind at 1, session, gets. cbn [sess world].
    rewrite add_message_pending, Hq, Htruthy. cbn [negb].
    rewrite Hty. unfold answer_choice. rewrite Hiter, Hfind.
    unfold bind at 1, clock, lift, gets. cbn [sess world].
    unfold bind at 1, on_session, modify. cbn [sess world].
    unfold bind at 1. fold t. fold s1. rewrite Hsend. reflexivity. }
  split; [exact Hresp|].
  split; [reflexivity|]. split; [exact Hq|]. split; [reflexivity|].
  split; [reflexivity|].
  unfold process_conversation, try_except at 1.
  unfold bind at 1, clock, lift, gets.
  unfold bind at 1, on_session, modify. cbn [sess world].
  unfold bind at 1, session, gets. cbn [sess world].
  unfold pending_truthy at 1. rewrite add_message_pending, Hq, Htruthy.
  unfold bind at 1. fold t. rewrite Hresp.
  unfold bind at 1, gets. cbn [sess world andb].
  unfold try_except. reflexivity.
Qed.

End WithWorld.

Lemma unmatched_choice_reprompts_and_goes_on_witness :
  exists s1 w1,
    requirements s1 = requirements Fixtures.asking_database /\
    pending_question s1 = Some Fixtures.database_question /\
    waiting_for_user s1 = waiting_for_user Fixtures.asking_database /\
    process_conversation Fixtures.sim_functions Fixtures.no_model_attribute 5 "mysql"
      false (mkRun Fixtures.asking_database Fixtures.quiet_world)
      = try_except (_process_with_gemini Fixtures.sim_functions 5 false)
          (turn_failed false) (mkRun s1 w1).
Proof.
  destruct (unmatched_choice_reprompts_and_goes_on Fixtures.sim_functions
              Fixtures.no_model_attribute 5 "mysql" false
              (mkRun Fixtures.asking_database Fixtures.quiet_world)
              Fixtures.database_question [VStr "sqlite"; VStr "postgresql"])
    as (w1 & _ & Hreq & Hq & Hw & _ & Hturn).
  - left. reflexivity.
  - reflexivity.
  - reflexivity.
  - reflexivity.
  - vm_compute. reflexivity.
  - eexists _, w1. split; [exact Hreq|]. split; [exact Hq|]. split; [exact Hw|].
    exact Hturn.
Defined.

(** C3 as it is worded fails: after an answer that matches no option
    the turn goes on.  Here the model answers with a function call,
    which moves the session from INIT to PLANNING within the same
    turn. *)
Lemma unmatched_choice_turn_is_not_stopped :
  let w := Fixtures.with_streams [[Fixtures.go_to "PLANNING"; FinishChunk "STOP"]]
             Fixtures.quiet_world in
  let r' := snd (process_conversation Fixtures.sim_functions Fixtures.no_model_attribute
                   5 "mysql" false (mkRun Fixtures.asking_database w)) in
  find_option (PyStr.strip (PyStr.lower "mysql")) [VStr "sqlite"; VStr "postgresql"]
    = Ok None /\
  current_state Fixtures.asking_database = INIT /\
  function_results Fixtures.asking_database = [] /\
  current_state (sess r') = PLANNING /\
  length (function_results (sess r')) = 2%nat /\
  Fixtures.sim_streams (world r') = [] /\
  pending_question (sess r') = Some Fixtures.database_question /\
  waiting_for_user (sess r') = true.
Proof.
  cbv zeta.
  split; [vm_compute; reflexivity|]. split; [reflexivity|]. split; [reflexivity|].
  split; [vm_compute; reflexivity|]. split; [vm_compute; reflexivity|].
  split; [vm_compute; reflexivity|]. split; vm_compute; reflexivity.
Qed.

(** C4 at a fresh session and one turn in which the model calls six
    functions: every call is recorded twice (by [execute] and by
    [_process_with_gemini]) and only the agent trims, by one entry: the
    history ends with eleven entries. *)
Theorem function_results_exceed_ten :
  let w := Fixtures.with_streams [Fixtures.six_calls] Fixtures.quiet_world in
  let r' := snd (process_conversation Fixtures.sim_functions Fixtures.no_model_attribute
                   5 "hello" false (mkRun Fixtures.fresh w)) in
  function_results Fixtures.fresh = [] /\
  error_message (sess r') = None /\
  length (function_results (sess r')) = 11%nat.
Proof.
  cbv zeta. split; [reflexivity|]. split; vm_compute; reflexivity.
Qed.

End AgentProofs.
